(** * AtmProgram.py: the account ledger engine of the ATM program

    A shallow embedding of [src/AtmProgram.py] (class [ATMSystem]) and the
    properties of its authentication guard and transaction engine.

    Modelling conventions.
    - A Python [Decimal] is modelled by the exact rational it denotes
      ([Qc], canonical rationals): Python compares decimals by value, and
      [+], [-], [*] are exact as long as the context precision (28 digits)
      is not exceeded.  The special values NaN and Infinity are outside
      the model.
    - Text is ASCII: [str.strip] and [str.upper] act on the ASCII range.
    - [datetime.now()] and [date.today()] read the wall clock; every method
      that reads it takes the reading [now] as an argument (microseconds of
      local time), and [date.today()] is the day [now] falls in.
    - The dictionaries of [ATMSystem] are finite maps; a subscript on a
      missing key raises [KeyError].
    - Calls to the logger and the Rich markup of console lines are left
      out; console lines that [authenticate] prints are returned with its
      result. *)

From Stdlib Require Import QArith Qcanon NArith ZArith Ascii String Lia Lqa.
From stdpp Require Import gmap strings list fin_maps numbers.

(** ** Python's [str] methods used by the program *)

Module str.

(** [c.isspace()] on the ASCII range: tab, LF, VT, FF, CR, the four
    separators 28-31 and the space. *)
Definition isspace (c : ascii) : bool :=
  let n := N_of_ascii c in
  ((n =? 32) || ((9 <=? n) && (n <=? 13)) || ((28 <=? n) && (n <=? 31)))%N.

Fixpoint lstrip (s : string) : string :=
  match s with
  | EmptyString => EmptyString
  | String c rest => if isspace c then lstrip rest else s
  end.

Fixpoint rstrip (s : string) : string :=
  match s with
  | EmptyString => EmptyString
  | String c rest =>
      match rstrip rest with
      | EmptyString => if isspace c then EmptyString else String c EmptyString
      | kept => String c kept
      end
  end.

Definition strip (s : string) : string := rstrip (lstrip s).

Definition upper_char (c : ascii) : ascii :=
  let n := N_of_ascii c in
  if ((97 <=? n) && (n <=? 122))%N then ascii_of_N (n - 32) else c.

Fixpoint upper (s : string) : string :=
  match s with
  | EmptyString => EmptyString
  | String c rest => String (upper_char c) (upper rest)
  end.

End str.

(** ** [hashlib.sha256]: SHA-256 as in FIPS 180-4, on 32-bit words in [N] *)

Module hashlib.
Local Open Scope N_scope.

Definition mask32 : N := 0xFFFFFFFF.
Definition add32 (a b : N) : N := N.land (a + b) mask32.
Definition rotr (n x : N) : N :=
  N.lor (N.shiftr x n) (N.land (N.shiftl x (32 - n)) mask32).
Definition not32 (x : N) : N := N.lxor x mask32.

Definition Ch (x y z : N) : N := N.lxor (N.land x y) (N.land (not32 x) z).
Definition Maj (x y z : N) : N :=
  N.lxor (N.lxor (N.land x y) (N.land x z)) (N.land y z).
Definition Sigma0 (x : N) : N :=
  N.lxor (N.lxor (rotr 2 x) (rotr 13 x)) (rotr 22 x).
Definition Sigma1 (x : N) : N :=
  N.lxor (N.lxor (rotr 6 x) (rotr 11 x)) (rotr 25 x).
Definition sigma0 (x : N) : N :=
  N.lxor (N.lxor (rotr 7 x) (rotr 18 x)) (N.shiftr x 3).
Definition sigma1 (x : N) : N :=
  N.lxor (N.lxor (rotr 17 x) (rotr 19 x)) (N.shiftr x 10).

(** The bit-by-bit integer root: the largest [r] below [2 ^ bits] with
    [r ^ k <= n]. *)
Fixpoint iroot (k : N) (bits : nat) (n r : N) : N :=
  match bits with
  | O => r
  | S bits' =>
      let r' := r + N.shiftl 1 (N.of_nat bits') in
      iroot k bits' n (if r' ^ k <=? n then r' else r)
  end.

Definition is_prime (n : N) : bool :=
  (2 <=? n) &&
  forallb (fun d => negb (n mod d =? 0)) (N.of_nat <$> seq 2 (N.to_nat n - 2)).

(** The first sixty-four primes: 2, 3, 5, ..., 311. *)
Definition primes64 : list N :=
  Eval vm_compute in filter (fun n => is_prime n = true) (N.of_nat <$> seq 2 310).

(** The first 32 bits of the fractional part of the [k]-th root of [p]. *)
Definition frac_root (k : N) (p : N) : N :=
  N.land (iroot k 36 (N.shiftl p (32 * k)) 0) mask32.

(** The round constants: from the cube roots of the first 64 primes. *)
Definition K256 : list N := Eval vm_compute in frac_root 3 <$> primes64.

(** The initial hash value: from the square roots of the first 8 primes. *)
Definition H256 : list N := Eval vm_compute in frac_root 2 <$> take 8 primes64.

(** The [n] low bytes of [x], most significant first. *)
Fixpoint be_bytes (n : nat) (x : N) : list N :=
  match n with
  | O => []
  | S n' => be_bytes n' (N.shiftr x 8) ++ [N.land x 0xFF]
  end.

(** Padding: a 1 bit, zeros up to 56 mod 64 bytes, the bit length. *)
Definition pad (msg : list N) : list N :=
  let len := N.of_nat (List.length msg) in
  let zeros := N.to_nat ((119 - len mod 64) mod 64) in
  msg ++ [0x80] ++ replicate zeros 0 ++ be_bytes 8 (8 * len).

Fixpoint words (fuel : nat) (bs : list N) : list N :=
  match fuel, bs with
  | S f, b0 :: b1 :: b2 :: b3 :: rest =>
      (N.shiftl b0 24 + N.shiftl b1 16 + N.shiftl b2 8 + b3) :: words f rest
  | _, _ => []
  end.

(** The message schedule over a window of the last sixteen words. *)
Fixpoint schedule (n : nat) (win : list N) : list N :=
  match n with
  | O => []
  | S n' =>
      let w := add32 (add32 (sigma1 (nth 14 win 0)) (nth 9 win 0))
                     (add32 (sigma0 (nth 1 win 0)) (nth 0 win 0)) in
      w :: schedule n' (tl win ++ [w])
  end.

Definition round (st : list N) (kw : N * N) : list N :=
  match st with
  | [a; b; c; d; e; f; g; h] =>
      let t1 := add32 (add32 (add32 h (Sigma1 e)) (add32 (Ch e f g) kw.1)) kw.2 in
      let t2 := add32 (Sigma0 a) (Maj a b c) in
      [add32 t1 t2; a; b; c; add32 d t1; e; f; g]
  | _ => st
  end.

Definition compress (hs : list N) (block : list N) : list N :=
  let w := block ++ schedule 48 block in
  zip_with add32 hs (foldl round hs (zip K256 w)).

Fixpoint blocks (fuel : nat) (ws : list N) : list (list N) :=
  match fuel, ws with
  | S f, _ :: _ => take 16 ws :: blocks f (drop 16 ws)
  | _, _ => []
  end.

Definition digest_words (msg : list N) : list N :=
  let ws := words (List.length msg + 72) (pad msg) in
  foldl compress H256 (blocks (List.length ws) ws).

Definition hex_digit (d : N) : ascii :=
  ascii_of_N (if d <? 10 then 48 + d else 87 + d).

Fixpoint hex_of (n : nat) (x : N) : list ascii :=
  match n with
  | O => []
  | S n' => hex_of n' (N.shiftr x 4) ++ [hex_digit (N.land x 0xF)]
  end.

(** [s.encode()]: the bytes of an ASCII string. *)
Definition encode (s : string) : list N :=
  N_of_ascii <$> list_ascii_of_string s.

(** [hashlib.sha256(b).hexdigest()] *)
Definition sha256_hexdigest (s : string) : string :=
  string_of_list_ascii (mjoin (hex_of 8 <$> digest_words (encode s))).

End hashlib.

(** ** [decimal.Decimal] *)

Abbreviation Decimal := Qc.

Module decimal.
Local Open Scope Qc_scope.

Definition of_Z (n : Z) : Decimal := Q2Qc (inject_Z n).

(** The integer part of [q], rounded towards zero. *)
Definition trunc (q : Decimal) : Z := Z.quot (Qnum q) (Zpos (Qden q)).

(** [x % y] on decimals: the remainder has the sign of the dividend,
    [x - y * trunc (x / y)]. *)
Definition rem (x y : Decimal) : Decimal := x - y * of_Z (trunc (x / y)).

Definition leb (x y : Decimal) : bool := bool_decide (x <= y).
Definition ltb (x y : Decimal) : bool := bool_decide (x < y).
Definition eqb (x y : Decimal) : bool := bool_decide (x = y).

End decimal.

(** ** The wall clock *)

(** A [datetime] is a count of microseconds of local time, a [date] a
    count of days. *)
Abbreviation datetime := Z.
Abbreviation date := Z.

Definition microseconds_per_day : Z := 86400000000.

(** The calendar date a clock reading falls in ([date.today()]). *)
Definition date_of (now : datetime) : date := (now / microseconds_per_day)%Z.

(** [(a - b).total_seconds() < secs] for whole [secs]. *)
Definition seconds_lt (delta : Z) (secs : Z) : bool := (delta <? secs * 1000000)%Z.

(** [time_diff // 60]: whole minutes in a time difference. *)
Definition whole_minutes (delta : Z) : Z := (delta / 60000000)%Z.

(** ** The data model *)

(** [@dataclass class Transaction] *)
Record Transaction : Type := mkTransaction {
  timestamp : datetime;
  type : string;
  amount : Decimal;
  balance_after : Decimal;
  recipient : option string
}.

(** An entry of [self.accounts]: [{'password_hash': ..., 'saldo': ...}]. *)
Record Account : Type := mkAccount {
  password_hash : string;
  saldo : Decimal
}.

(** The attributes of an [ATMSystem] instance ([__init__]). *)
Record ATMSystem : Type := mkATMSystem {
  daily_totals : gmap string (gmap string (gmap date Decimal));
  accounts : gmap string Account;
  transaction_history : gmap string (list Transaction);
  failed_attempts : gmap string (Z * datetime);
  session_active : bool;
  current_user : option string
}.

Definition set_daily_totals (v : gmap string (gmap string (gmap date Decimal)))
    (self : ATMSystem) : ATMSystem :=
  mkATMSystem v (accounts self) (transaction_history self)
              (failed_attempts self) (session_active self) (current_user self).

Definition set_accounts (v : gmap string Account) (self : ATMSystem) : ATMSystem :=
  mkATMSystem (daily_totals self) v (transaction_history self)
              (failed_attempts self) (session_active self) (current_user self).

Definition set_transaction_history (v : gmap string (list Transaction))
    (self : ATMSystem) : ATMSystem :=
  mkATMSystem (daily_totals self) (accounts self) v
              (failed_attempts self) (session_active self) (current_user self).

Definition set_failed_attempts (v : gmap string (Z * datetime))
    (self : ATMSystem) : ATMSystem :=
  mkATMSystem (daily_totals self) (accounts self) (transaction_history self)
              v (session_active self) (current_user self).

Definition set_session (active : bool) (user : option string)
    (self : ATMSystem) : ATMSystem :=
  mkATMSystem (daily_totals self) (accounts self) (transaction_history self)
              (failed_attempts self) active user.

(** ** Exceptions and the method monad *)

Inductive exception : Type :=
  | SecurityError (msg : string)   (* class SecurityError(Exception) *)
  | KeyError (key : string)        (* a subscript on a missing key *)
  | TypeError.                     (* Decimal + a value that is no number *)

(** A method call either returns a value or raises; both leave the
    instance in some state. *)
Inductive outcome (A : Type) : Type :=
  | Returns (a : A) (self : ATMSystem)
  | Raises (e : exception) (self : ATMSystem).
Arguments Returns {A} a self.
Arguments Raises {A} e self.

Definition method (A : Type) : Type := ATMSystem -> outcome A.

Definition ret {A} (a : A) : method A := fun self => Returns a self.
Definition raise {A} (e : exception) : method A := fun self => Raises e self.
Definition bind {A B} (m : method A) (k : A -> method B) : method B :=
  fun self =>
    match m self with
    | Returns a self' => k a self'
    | Raises e self' => Raises e self'
    end.
Definition get : method ATMSystem := fun self => Returns self self.
Definition modify (f : ATMSystem -> ATMSystem) : method unit :=
  fun self => Returns tt (f self).

Declare Scope method_scope.
Delimit Scope method_scope with method.
Notation "x <- m ;; k" := (bind m (fun x => k))
  (at level 100, m at next level, right associativity) : method_scope.
Notation "m ;; k" := (bind m (fun _ => k))
  (at level 100, right associativity) : method_scope.
Local Open Scope method_scope.

(** [d[key]] on a dictionary: [KeyError] when the key is missing. *)
Definition getitem {V} (d : gmap string V) (key : string) : method V :=
  match d !! key with
  | Some v => ret v
  | None => raise (KeyError key)
  end.

(** The state a call leaves behind, whether it returned or raised. *)
Definition state_after {A} (o : outcome A) : ATMSystem :=
  match o with
  | Returns _ self => self
  | Raises _ self => self
  end.

(** ** Construction: [__init__] and [_load_initial_data] *)

(** [_hash_password]: the SHA-256 hex digest of the trimmed password. *)
Definition _hash_password (password : string) : string :=
  hashlib.sha256_hexdigest (str.strip password).

(** The seed accounts the program creates when it is given none. *)
Definition default_initial_data : list (string * string * Decimal) :=
  [ ("ATA"%string, _hash_password "8830", decimal.of_Z 100000);
    ("AISYAH"%string, _hash_password "8790", decimal.of_Z 50000);
    ("EZRA DEBY"%string, _hash_password "9086", decimal.of_Z 200000) ].

(** [{'withdrawal': {}, 'deposit': {}, 'transfer': {}}] *)
Definition empty_totals : gmap string (gmap date Decimal) :=
  <["withdrawal"%string := ∅]> (<["deposit"%string := ∅]> (<["transfer"%string := ∅]> ∅)).

(** The body of the loop of [_load_initial_data]. *)
Definition load_entry (self : ATMSystem) (entry : string * string * Decimal)
    : ATMSystem :=
  let '(username, pw_hash, saldo) := entry in
  let key := str.upper (str.strip username) in
  set_daily_totals (<[key := empty_totals]> (daily_totals self))
    (set_accounts (<[key := mkAccount pw_hash saldo]> (accounts self)) self).

Definition _load_initial_data
    (initial_data : option (list (string * string * Decimal)))
    (self : ATMSystem) : ATMSystem :=
  foldl load_entry self (default default_initial_data initial_data).

Definition __init__ (initial_data : option (list (string * string * Decimal)))
    : ATMSystem :=
  _load_initial_data initial_data (mkATMSystem ∅ ∅ ∅ ∅ false None).

(** ** The session and authentication guard *)

(** The lines [authenticate] prints on the console. *)
Inductive console_line : Type :=
  | Account_locked (minutes : Z)
      (* "Account locked. Please try again in {minutes} minutes" *)
  | User_not_found
      (* "User not found." *)
  | Login_failed (remaining : Z).
      (* "Login failed. {remaining} attempt(s) remaining before temporary lockout." *)

Definition _handle_failed_attempt (username : string) (now : datetime)
    (self : ATMSystem) : list console_line * ATMSystem :=
  let attempts :=
    match failed_attempts self !! username with
    | Some (attempts, _) => (attempts + 1)%Z
    | None => 1%Z
    end in
  let self := set_failed_attempts
                (<[username := (attempts, now)]> (failed_attempts self)) self in
  let remaining := Z.max 0 (3 - attempts) in
  ([Login_failed remaining], self).

(** [authenticate] from the membership test on [self.accounts] onwards;
    [username] is already normalised. *)
Definition check_credentials (username password : string) (now : datetime)
    (self : ATMSystem) : bool * list console_line * ATMSystem :=
  match accounts self !! username with
  | None => (false, [User_not_found], self)
  | Some account =>
      let stored_hash := password_hash account in
      if decide (_hash_password password = stored_hash) then
        (true, [],
         set_session true (Some username)
           (set_failed_attempts
              (<[username := (0%Z, now)]> (failed_attempts self)) self))
      else
        let '(printed, self) := _handle_failed_attempt username now self in
        (false, printed, self)
  end.

Definition authenticate (username password : string) (now : datetime)
    (self : ATMSystem) : bool * list console_line * ATMSystem :=
  let username := str.upper (str.strip username) in
  match failed_attempts self !! username with
  | Some (attempts, last_attempt) =>
      if (3 <=? attempts)%Z then
        let time_diff := (now - last_attempt)%Z in
        if seconds_lt time_diff 300 then
          (false, [Account_locked (5 - whole_minutes time_diff)], self)
        else
          check_credentials username password now
            (set_failed_attempts
               (<[username := (0%Z, now)]> (failed_attempts self)) self)
      else check_credentials username password now self
  | None => check_credentials username password now self
  end.

Definition logout (self : ATMSystem) : ATMSystem :=
  if session_active self then set_session false None self else self.

(** [_assert_session] raises unless a session is active.  The helpers
    that follow it in a method read [self.current_user], which it has
    shown not to be [None]; it hands them that name. *)
Definition _assert_session : method string :=
  fun self =>
    match session_active self, current_user self with
    | true, Some user => Returns user self
    | _, _ => Raises (SecurityError "No active session") self
    end.

(** ** The transaction engine *)

Definition check_balance : method Decimal :=
  user <- _assert_session ;;
  self <- get ;;
  account <- getitem (accounts self) user ;;
  ret (saldo account).

Definition _update_daily_total (user trans_type : string) (amount : Decimal)
    (now : datetime) : method unit :=
  let today := date_of now in
  self <- get ;;
  of_user <- getitem (daily_totals self) user ;;
  user_totals <- getitem of_user trans_type ;;
  let user_totals :=
    <[today := (default 0%Qc (user_totals !! today) + amount)%Qc]> user_totals in
  modify (set_daily_totals
            (<[user := <[trans_type := user_totals]> of_user]> (daily_totals self))).

Definition _get_daily_total (user trans_type : string) (now : datetime)
    : method Decimal :=
  let today := date_of now in
  self <- get ;;
  of_user <- getitem (daily_totals self) user ;;
  user_totals <- getitem of_user trans_type ;;
  ret (default 0%Qc (user_totals !! today)).

Definition _log_transaction (user : string) (trans : Transaction) : method unit :=
  modify (fun self =>
    let history := default [] (transaction_history self !! user) in
    set_transaction_history
      (<[user := history ++ [trans]]> (transaction_history self)) self).

(** [self.accounts[user]['saldo'] = f(self.accounts[user]['saldo'])] *)
Definition update_saldo (user : string) (f : Decimal -> Decimal) : method unit :=
  self <- get ;;
  account <- getitem (accounts self) user ;;
  modify (set_accounts
            (<[user := mkAccount (password_hash account) (f (saldo account))]>
               (accounts self))).

(** An [amount] argument: a [Decimal], as the methods are annotated, or a
    value the constructor [Decimal(amount)] rejects with [InvalidOperation]
    or [ValueError]. *)
Inductive argument : Type :=
  | Dec (d : Decimal)
  | Malformed.

(** The second component of the pairs the engine returns. *)
Inductive message : Type :=
  | Invalid_amount                      (* "Invalid amount" *)
  | Amount_must_be_positive             (* "Amount must be positive" *)
  | Amount_must_be_in_multiples         (* "Amount must be in multiples of 50,000" *)
  | Insufficient_funds                  (* "Insufficient funds" *)
  | Daily_limit_exceeded (daily_limit : Decimal)
      (* "Daily withdrawal limit (Rp{daily_limit:,}) exceeded" *)
  | Successfully_withdrawn (amount : Decimal)
  | Successfully_deposited (amount : Decimal)
  | Recipient_account_not_found         (* "Recipient account not found" *)
  | Cannot_transfer_to_own_account      (* "Cannot transfer to your own account" *)
  | Successfully_transferred (amount : Decimal) (recipient : string)
  | Incorrect_old_PIN                   (* "Incorrect old PIN" *)
  | PIN_successfully_changed            (* "PIN successfully changed." *)
  | Interest_applied (interest balance : Decimal).

Definition withdraw (amount : argument) (now : datetime) : method (bool * message) :=
  user <- _assert_session ;;
  match amount with
  | Malformed => ret (false, Invalid_amount)
  | Dec amount =>
      if decimal.leb amount 0 then ret (false, Amount_must_be_positive)
      else if negb (decimal.eqb (decimal.rem amount (decimal.of_Z 50000)) 0)
      then ret (false, Amount_must_be_in_multiples)
      else
        current_balance <- check_balance ;;
        if decimal.ltb current_balance amount then ret (false, Insufficient_funds)
        else
          let daily_limit := decimal.of_Z 5000000 in
          total <- _get_daily_total user "withdrawal" now ;;
          if decimal.ltb daily_limit (total + amount)%Qc
          then ret (false, Daily_limit_exceeded daily_limit)
          else
            update_saldo user (fun saldo => (saldo - amount)%Qc) ;;
            _update_daily_total user "withdrawal" amount now ;;
            balance <- check_balance ;;
            _log_transaction user
              (mkTransaction now "withdrawal" amount balance None) ;;
            ret (true, Successfully_withdrawn amount)
  end.

Definition deposit (amount : argument) (now : datetime) : method (bool * message) :=
  user <- _assert_session ;;
  match amount with
  | Malformed => ret (false, Invalid_amount)
  | Dec amount =>
      if decimal.leb amount 0 then ret (false, Amount_must_be_positive)
      else
        update_saldo user (fun saldo => (saldo + amount)%Qc) ;;
        _update_daily_total user "deposit" amount now ;;
        balance <- check_balance ;;
        _log_transaction user
          (mkTransaction now "deposit" amount balance None) ;;
        ret (true, Successfully_deposited amount)
  end.

(** [transfer] keeps the argument as it was given: the conversion to
    [Decimal] is local to [withdraw]. *)
Definition transfer (recipient : string) (amount : argument) (now : datetime)
    : method (bool * message) :=
  user <- _assert_session ;;
  let recipient := str.upper (str.strip recipient) in
  self <- get ;;
  match accounts self !! recipient with
  | None => ret (false, Recipient_account_not_found)
  | Some _ =>
      if decide (recipient = user) then ret (false, Cannot_transfer_to_own_account)
      else
        result <- withdraw amount now ;;
        let '(success, message) := result in
        if negb success then ret (false, message)
        else
          match amount with
          | Malformed => raise TypeError
          | Dec amount =>
              update_saldo recipient (fun saldo => (saldo + amount)%Qc) ;;
              _update_daily_total user "transfer" amount now ;;
              balance <- check_balance ;;
              _log_transaction user
                (mkTransaction now "transfer" amount balance (Some recipient)) ;;
              ret (true, Successfully_transferred amount recipient)
          end
  end.

Definition change_pin (old_pin new_pin : string) : method (bool * message) :=
  user <- _assert_session ;;
  self <- get ;;
  account <- getitem (accounts self) user ;;
  if decide (_hash_password old_pin <> password_hash account)
  then ret (false, Incorrect_old_PIN)
  else
    modify (set_accounts
              (<[user := mkAccount (_hash_password new_pin) (saldo account)]>
                 (accounts self))) ;;
    ret (true, PIN_successfully_changed).

Definition simulate_interest (interest_rate : Decimal) (now : datetime)
    : method (bool * message) :=
  user <- _assert_session ;;
  current_balance <- check_balance ;;
  let interest := (current_balance * interest_rate)%Qc in
  update_saldo user (fun saldo => (saldo + interest)%Qc) ;;
  balance <- check_balance ;;
  _log_transaction user (mkTransaction now "interest" interest balance None) ;;
  self <- get ;;
  account <- getitem (accounts self) user ;;
  ret (true, Interest_applied interest (saldo account)).

(** The records themselves stand for the dictionaries [to_dict] makes of
    them. *)
Definition get_transaction_history : method (list Transaction) :=
  user <- _assert_session ;;
  self <- get ;;
  ret (default [] (transaction_history self !! user)).

(** ** Notions used in the statements *)

Definition balance_of (user : string) (self : ATMSystem) : option Decimal :=
  saldo <$> accounts self !! user.

Definition history_of (user : string) (self : ATMSystem) : list Transaction :=
  default [] (transaction_history self !! user).

(** The value a call returned, if it did. *)
Definition returned {A} (o : outcome A) : option A :=
  match o with
  | Returns a _ => Some a
  | Raises _ _ => None
  end.

Definition logged_in_as (user : string) (self : ATMSystem) : Prop :=
  session_active self = true /\ current_user self = Some user.

Definition no_session (self : ATMSystem) : Prop :=
  session_active self = false \/ current_user self = None.

(** The accumulated amount of one kind on one date for one account,
    zero when nothing is recorded. *)
Definition usage_on (user trans_type : string) (day : date) (self : ATMSystem)
    : Decimal :=
  default 0%Qc
    (of_user ← daily_totals self !! user;
     user_totals ← of_user !! trans_type;
     user_totals !! day).

(** What [_load_initial_data] sets up for an account. *)
Definition has_totals (user : string) (self : ATMSystem) : Prop :=
  exists of_user,
    daily_totals self !! user = Some of_user /\
    is_Some (of_user !! "withdrawal"%string) /\
    is_Some (of_user !! "deposit"%string) /\
    is_Some (of_user !! "transfer"%string).

Record well_formed (self : ATMSystem) : Prop := {
  wf_totals : forall user, is_Some (accounts self !! user) -> has_totals user self;
  wf_user : forall user, current_user self = Some user ->
                         is_Some (accounts self !! user)
}.

(** The three state changes of the engine, on an account that exists. *)
Definition map_saldo (user : string) (f : Decimal -> Decimal) (self : ATMSystem)
    : ATMSystem :=
  let hash := default ""%string (password_hash <$> accounts self !! user) in
  let balance := default 0%Qc (balance_of user self) in
  set_accounts (<[user := mkAccount hash (f balance)]> (accounts self)) self.

Definition record_usage (user trans_type : string) (amount : Decimal) (day : date)
    (self : ATMSystem) : ATMSystem :=
  let of_user := default ∅ (daily_totals self !! user) in
  let user_totals := default ∅ (of_user !! trans_type) in
  let total := (usage_on user trans_type day self + amount)%Qc in
  set_daily_totals
    (<[user := <[trans_type := <[day := total]> user_totals]> of_user]>
       (daily_totals self)) self.

Definition append_record (user : string) (trans : Transaction) (self : ATMSystem)
    : ATMSystem :=
  set_transaction_history
    (<[user := history_of user self ++ [trans]]> (transaction_history self)) self.

(** The states the successful operations leave. *)
Definition withdrawn (user : string) (amount : Decimal) (now : datetime)
    (self : ATMSystem) : ATMSystem :=
  let balance := (default 0%Qc (balance_of user self) - amount)%Qc in
  append_record user (mkTransaction now "withdrawal" amount balance None)
    (record_usage user "withdrawal" amount (date_of now)
       (map_saldo user (fun saldo => (saldo - amount)%Qc) self)).

Definition deposited (user : string) (amount : Decimal) (now : datetime)
    (self : ATMSystem) : ATMSystem :=
  let balance := (default 0%Qc (balance_of user self) + amount)%Qc in
  append_record user (mkTransaction now "deposit" amount balance None)
    (record_usage user "deposit" amount (date_of now)
       (map_saldo user (fun saldo => (saldo + amount)%Qc) self)).

Definition transferred (user recipient : string) (amount : Decimal)
    (now : datetime) (self : ATMSystem) : ATMSystem :=
  let balance := (default 0%Qc (balance_of user self) - amount)%Qc in
  append_record user (mkTransaction now "transfer" amount balance (Some recipient))
    (record_usage user "transfer" amount (date_of now)
       (map_saldo recipient (fun saldo => (saldo + amount)%Qc)
          (withdrawn user amount now self))).

Definition accrued (user : string) (interest_rate : Decimal) (now : datetime)
    (self : ATMSystem) : ATMSystem :=
  let current_balance := default 0%Qc (balance_of user self) in
  let interest := (current_balance * interest_rate)%Qc in
  append_record user
    (mkTransaction now "interest" interest (current_balance + interest)%Qc None)
    (map_saldo user (fun saldo => (saldo + interest)%Qc) self).

Definition pin_changed (user new_pin : string) (self : ATMSystem) : ATMSystem :=
  let balance := default 0%Qc (balance_of user self) in
  set_accounts
    (<[user := mkAccount (_hash_password new_pin) balance]> (accounts self)) self.

(** The account is in its cooling period at [now]: [authenticate] turns
    the attempt down before it looks at the credential. *)
Definition locked_out (user : string) (now : datetime) (self : ATMSystem) : bool :=
  match failed_attempts self !! user with
  | Some (attempts, last_attempt) =>
      (3 <=? attempts)%Z && seconds_lt (now - last_attempt) 300
  | None => false
  end.


Definition balances_nonneg (self : ATMSystem) : Prop :=
  forall user account, accounts self !! user = Some account -> (0 <= saldo account)%Qc.

(** ** Sequences of calls

    A caller such as [main] issues one call after another and carries on
    after a call that raised. *)
Inductive command : Type :=
  | Authenticate (username password : string)
  | Logout
  | CheckBalance
  | Withdraw (amount : argument)
  | Deposit (amount : argument)
  | Transfer (recipient : string) (amount : argument)
  | ChangePin (old_pin new_pin : string)
  | SimulateInterest (interest_rate : Decimal)
  | TransactionHistory.

Definition execute (now : datetime) (c : command) (self : ATMSystem) : ATMSystem :=
  match c with
  | Authenticate username password => (authenticate username password now self).2
  | Logout => logout self
  | CheckBalance => state_after (check_balance self)
  | Withdraw amount => state_after (withdraw amount now self)
  | Deposit amount => state_after (deposit amount now self)
  | Transfer recipient amount => state_after (transfer recipient amount now self)
  | ChangePin old_pin new_pin => state_after (change_pin old_pin new_pin self)
  | SimulateInterest interest_rate =>
      state_after (simulate_interest interest_rate now self)
  | TransactionHistory => state_after (get_transaction_history self)
  end.

Definition run (script : list (datetime * command)) (self : ATMSystem) : ATMSystem :=
  foldl (fun self call => execute call.1 call.2 self) self script.

(** Every interest rate of a script is at least [bound]. *)
Definition rates_from (bound : Decimal) (script : list (datetime * command)) : Prop :=
  Forall (fun call : datetime * command =>
            match call.2 with
            | SimulateInterest interest_rate => (bound <= interest_rate)%Qc
            | _ => True
            end) script.

(** The conditions under which [withdraw] goes through. *)
Definition withdrawable (user : string) (a : Decimal) (now : datetime)
    (self : ATMSystem) : Prop :=
  (0 < a)%Qc /\
  decimal.rem a (decimal.of_Z 50000) = 0%Qc /\
  (a <= default 0%Qc (balance_of user self))%Qc /\
  (usage_on user "withdrawal" (date_of now) self + a <= decimal.of_Z 5000000)%Qc.




(** ** Sample states on the seed accounts *)

Definition atm0 : ATMSystem := __init__ None.

(** 2026-01-01 00:00 counted from 1970-01-01, and one minute. *)
Definition t0 : datetime := (20454 * microseconds_per_day)%Z.
Definition minute : Z := 60000000.

(** The seed system after ATA has logged in. *)
Definition ata_session : ATMSystem := (authenticate "ata" "8830" t0 atm0).2.

(** A script that exercises every operation. *)
Definition sample_script : list (datetime * command) :=
  [ (t0, Authenticate "ata" "8830");
    (t0, Deposit (Dec (decimal.of_Z 25000)));
    (t0, Withdraw (Dec (decimal.of_Z 50000)));
    (t0, Transfer "aisyah" (Dec (decimal.of_Z 50000)));
    (t0, ChangePin "8830" "1234");
    (t0, SimulateInterest (- (1))%Qc);
    (t0, SimulateInterest (Q2Qc (1 # 100))) ].




(** The engine's commands: every command but [Authenticate] and [Logout]. *)
Definition engine_command (c : command) : bool :=
  match c with
  | Authenticate _ _ | Logout => false
  | _ => true
  end.

(** What one call of the engine can do to a well-formed state. *)
Inductive engine_effect (now : datetime) (self : ATMSystem) : ATMSystem -> Prop :=
  | effect_none : engine_effect now self self
  | effect_withdrawn user a :
      logged_in_as user self -> withdrawable user a now self ->
      engine_effect now self (withdrawn user a now self)
  | effect_deposited user a :
      logged_in_as user self -> (0 < a)%Qc ->
      engine_effect now self (deposited user a now self)
  | effect_transferred user recipient a :
      logged_in_as user self -> withdrawable user a now self ->
      is_Some (accounts self !! recipient) -> recipient <> user ->
      engine_effect now self (transferred user recipient a now self)
  | effect_accrued user interest_rate :
      logged_in_as user self ->
      engine_effect now self (accrued user interest_rate now self)
  | effect_pin_changed user new_pin :
      logged_in_as user self ->
      engine_effect now self (pin_changed user new_pin self).

(** Engine calls on the seed accounts, for ATA's session. *)
Definition engine_script : list (datetime * command) :=
  [ (t0, Deposit (Dec (decimal.of_Z 25000)));
    (t0, Transfer "aisyah" (Dec (decimal.of_Z 50000)));
    (t0, ChangePin "8830" "1234");
    (t0, SimulateInterest (Q2Qc (1 # 100)));
    (t0, Withdraw (Dec (decimal.of_Z 70000)));
    (t0, CheckBalance); (t0, TransactionHistory) ].

(** Four wrong PINs for ATA in a row. *)
Definition four_wrong_pins : list (datetime * command) :=
  [ (t0, Authenticate "ata" "0000"); (t0, Authenticate "ata" "1111");
    (t0, Authenticate "ata" "2222"); (t0, Authenticate "ata" "3333") ].

(** The session flag and the current user agree, the current user is an
    account, and every failure counter belongs to an account and lies
    between 0 and 3. *)
Record consistent (self : ATMSystem) : Prop := {
  session_agrees : session_active self = true <-> is_Some (current_user self);
  counters_known : forall user attempts last_attempt,
      failed_attempts self !! user = Some (attempts, last_attempt) ->
      (0 <= attempts <= 3)%Z /\ is_Some (accounts self !! user)
}.








(** ** The command loop: [main] *)

(** [s.lower()] on the ASCII range. *)
Definition lower_char (c : ascii) : ascii :=
  let n := N_of_ascii c in
  if ((65 <=? n) && (n <=? 90))%N then ascii_of_N (n + 32) else c.

Fixpoint lower (s : string) : string :=
  match s with
  | EmptyString => EmptyString
  | String c rest => String (lower_char c) (lower rest)
  end.

(** What is typed at the prompts, in order: each line with the reading of
    the clock the call made after it takes.  [Prompt.ask] on an exhausted
    input raises [EOFError]. *)
Definition stdin : Type := list (datetime * string).

(** What [main] puts on the console. *)
Inductive screen : Type :=
  | Welcome                               (* the welcome panel *)
  | Goodbye                               (* "Exiting... Goodbye!" *)
  | Login_successful                      (* the "Login successful!" panel *)
  | Menu                                  (* the table of the nine options *)
  | Printed (line : console_line)         (* a line printed by [authenticate] *)
  | Current_balance (balance : Decimal)   (* "Current balance: Rp{balance:,}" *)
  | Invalid_amount_typed                  (* "Invalid amount", from [main] itself *)
  | Reply (message : message)             (* the message a call returned *)
  | No_transaction_history                (* "No transaction history available" *)
  | History_table (history : list Transaction)
  | Logged_out                            (* "Logged out successfully" *)
  | Invalid_option                        (* "Invalid option. ..." *)
  | Security_error (msg : string)         (* "Security error: {se}" *)
  | Unexpected_error (e : option exception).
      (* "An unexpected error occurred: {e}"; [None] is the [EOFError]
         of a prompt *)

(** Where the loop stands after a turn: it goes round again, it took a
    [break], or an exception left [main]. *)
Inductive status : Type :=
  | Running
  | Exited
  | Crashed.

Record turn : Type := mkTurn {
  flow : status;
  printed : list screen;
  pending : stdin;
  machine : ATMSystem
}.

(** The three [except] clauses of the loop body; no call of the engine
    raises a [ValueError]. *)
Definition handler (e : exception) : list screen :=
  match e with
  | SecurityError msg => [Security_error msg]
  | e => [Unexpected_error (Some e)]
  end.

(** [success, message = atm.<call>(...)] followed by the print of the
    message, inside the [try]. *)
Definition replied (o : outcome (bool * message)) (input : stdin) : turn :=
  match o with
  | Returns (_, message) atm => mkTurn Running [Reply message] input atm
  | Raises e atm => mkTurn Running (handler e) input atm
  end.

Section main.

(** [Decimal(text)] on a string: [None] where the constructor raises
    [InvalidOperation].  The values are the finite ones, as everywhere
    here: the special values the constructor also reads (NaN, Infinity)
    are not part of [Decimal]. *)
Variable Decimal_of_str : string -> option Decimal.

(** The prompt for an amount, its conversion, and the call. *)
Definition ask_amount (call : Decimal -> datetime -> method (bool * message))
    (input : stdin) (atm : ATMSystem) : turn :=
  match input with
  | [] => mkTurn Running [Unexpected_error None] [] atm
  | (now, amt_input) :: input =>
      match Decimal_of_str (str.strip amt_input) with
      | None => mkTurn Running [Invalid_amount_typed] input atm
      | Some amount => replied (call amount now atm) input
      end
  end.

(** The [try] block: the prompt for an option and its branch. *)
Definition option_chosen (input : stdin) (atm : ATMSystem) : turn :=
  match input with
  | [] => mkTurn Running [Unexpected_error None] [] atm
  | (now, choice) :: input =>
      let choice := str.strip choice in
      if decide (choice = "1"%string) then
        match check_balance atm with
        | Returns balance atm => mkTurn Running [Current_balance balance] input atm
        | Raises e atm => mkTurn Running (handler e) input atm
        end
      else if decide (choice = "2"%string) then
        ask_amount (fun amount now => withdraw (Dec amount) now) input atm
      else if decide (choice = "3"%string) then
        ask_amount (fun amount now => deposit (Dec amount) now) input atm
      else if decide (choice = "4"%string) then
        match input with
        | [] => mkTurn Running [Unexpected_error None] [] atm
        | (_, recipient) :: input =>
            ask_amount
              (fun amount now => transfer (str.strip recipient) (Dec amount) now)
              input atm
        end
      else if decide (choice = "5"%string) then
        match get_transaction_history atm with
        | Returns history atm =>
            mkTurn Running
              (match history with
               | [] => [No_transaction_history]
               | _ => [History_table history]
               end) input atm
        | Raises e atm => mkTurn Running (handler e) input atm
        end
      else if decide (choice = "6"%string) then
        match input with
        | (_, old_pin) :: (_, new_pin) :: input =>
            replied (change_pin (str.strip old_pin) (str.strip new_pin) atm) input
        | _ => mkTurn Running [Unexpected_error None] [] atm
        end
      else if decide (choice = "7"%string) then
        replied (simulate_interest (Q2Qc (1 # 100)) now atm) input
      else if decide (choice = "8"%string) then
        mkTurn Running [Logged_out] input (logout atm)
      else if decide (choice = "9"%string) then
        mkTurn Exited [Goodbye] input atm
      else mkTurn Running [Invalid_option] input atm
  end.

(** One turn of [while True]. *)
Definition iteration (input : stdin) (atm : ATMSystem) : turn :=
  if negb (session_active atm) then
    match input with
    | [] => mkTurn Crashed [] [] atm
    | (_, username) :: input =>
        let username := str.strip username in
        if decide (lower username = "exit"%string)
        then mkTurn Exited [Goodbye] input atm
        else
          match input with
          | [] => mkTurn Crashed [] [] atm
          | (now, password) :: input =>
              let password := str.strip password in
              let '(ok, lines, atm) := authenticate username password now atm in
              if negb ok then mkTurn Running (Printed <$> lines) input atm
              else
                let chosen := option_chosen input atm in
                mkTurn (flow chosen)
                  ((Printed <$> lines) ++ Login_successful :: Menu :: printed chosen)
                  (pending chosen) (machine chosen)
          end
    end
  else
    let chosen := option_chosen input atm in
    mkTurn (flow chosen) (Menu :: printed chosen) (pending chosen) (machine chosen).

(** The loop, for at most [fuel] turns. *)
Fixpoint main_loop (fuel : nat) (input : stdin) (atm : ATMSystem) : turn :=
  match fuel with
  | O => mkTurn Running [] input atm
  | S fuel =>
      let first := iteration input atm in
      match flow first with
      | Running =>
          let rest := main_loop fuel (pending first) (machine first) in
          mkTurn (flow rest) (printed first ++ printed rest) (pending rest) (machine rest)
      | _ => first
      end
  end.

Definition main (fuel : nat) (input : stdin) : turn :=
  let loop := main_loop fuel input (__init__ None) in
  mkTurn (flow loop) (Welcome :: printed loop) (pending loop) (machine loop).

End main.

(** A reader of unsigned numerals in plain digits, to run the loop on
    sample input. *)
Definition digit_of (c : ascii) : option Z :=
  let n := N_of_ascii c in
  if ((48 <=? n) && (n <=? 57))%N then Some (Z.of_N (n - 48)) else None.

Fixpoint digits_value (acc : Z) (s : string) : option Z :=
  match s with
  | EmptyString => Some acc
  | String c rest =>
      match digit_of c with
      | Some d => digits_value (10 * acc + d) rest
      | None => None
      end
  end.

Definition plain_numeral (s : string) : option Decimal :=
  match s with
  | EmptyString => None
  | _ => decimal.of_Z <$> digits_value 0 s
  end.

(** ATA logs in, withdraws 50,000, asks for the balance and leaves by
    option 9. *)
Definition sample_input : stdin :=
  [ (t0, " ata "%string); (t0, "8830"%string);
    (t0, "2"%string); (t0, "50000"%string);
    (t0, "1"%string);
    (t0, "9"%string) ].

(** No line of the output reports an exception of the engine. *)
Definition reports_no_exception (line : screen) : Prop :=
  match line with
  | Security_error _ => False
  | Unexpected_error (Some _) => False
  | _ => True
  end.

(** Every interest rate of a script is one per cent. *)
Definition one_per_cent (script : list (datetime * command)) : Prop :=
  Forall (fun call : datetime * command =>
            forall interest_rate,
              call.2 = SimulateInterest interest_rate ->
              interest_rate = Q2Qc (1 # 100)) script.

(** ** The library models on known values *)

Example sha256_abc :
  hashlib.sha256_hexdigest "abc" =
    "ba7816bf8f01cfea414140de5dae2223b00361a396177a9cb410ff61f20015ad"%string.
Proof. vm_compute. reflexivity. Qed.

Example sha256_two_blocks :
  hashlib.sha256_hexdigest
    "abcdbcdecdefdefgefghfghighijhijkijkljklmklmnlmnomnopnopq" =
    "248d6a61d20638b8e5c026930c3e6039a33ce45964ff2167f6ecedd419db06c1"%string.
Proof. vm_compute. reflexivity. Qed.

Example hash_password_trims :
  _hash_password "  8830 " = _hash_password "8830" /\
  _hash_password "8830" =
    "b95ca3eac805e91f90741811917f3bb7fc2135586e0e4f2e10d66d432d0547d5"%string.
Proof. split; vm_compute; reflexivity. Qed.

Example strip_upper_username :
  str.upper (str.strip "  Ezra Deby ") = "EZRA DEBY"%string.
Proof. reflexivity. Qed.

Example decimal_rem_values :
  decimal.rem (decimal.of_Z 70000) (decimal.of_Z 50000) = decimal.of_Z 20000 /\
  decimal.rem (decimal.of_Z (-30000)) (decimal.of_Z 50000) = decimal.of_Z (-30000) /\
  decimal.rem (Q2Qc (100001 # 2)) (decimal.of_Z 50000) = Q2Qc (1 # 2).
Proof. repeat split; apply Qc_is_canon; vm_compute; reflexivity. Qed.

(** The example of the specification: ATA starts at 100000; two
    withdrawals of 50000 succeed and leave 50000, then 0; a third fails
    for lack of funds. *)
Example ata_three_withdrawals :
  let fifty := Dec (decimal.of_Z 50000) in
  let s1 := state_after (withdraw fifty t0 ata_session) in
  let s2 := state_after (withdraw fifty t0 s1) in
  fst <$> returned (withdraw fifty t0 ata_session) = Some true /\
  history_of "ATA" s1 =
    [mkTransaction t0 "withdrawal" (decimal.of_Z 50000) (decimal.of_Z 100000 - decimal.of_Z 50000)%Qc None] /\
  fst <$> returned (withdraw fifty t0 s1) = Some true /\
  returned (withdraw fifty t0 s2) = Some (false, Insufficient_funds).
Proof. vm_compute. repeat split; reflexivity. Qed.

(** ** Arithmetic on decimals *)

Lemma this_plus (x y : Qc) : (this (x + y)%Qc == this x + this y)%Q.
Proof. unfold Qcplus. simpl. apply Qred_correct. Qed.
Lemma this_minus (x y : Qc) : (this (x - y)%Qc == this x - this y)%Q.
Proof. unfold Qcminus, Qcplus, Qcopp. simpl. rewrite !Qred_correct. reflexivity. Qed.
Lemma this_mult (x y : Qc) : (this (x * y)%Qc == this x * this y)%Q.
Proof. unfold Qcmult. simpl. apply Qred_correct. Qed.
Lemma this_opp (x : Qc) : (this (- x)%Qc == - this x)%Q.
Proof. unfold Qcopp. simpl. apply Qred_correct. Qed.
Lemma this_of_Z (n : Z) : (this (decimal.of_Z n) == inject_Z n)%Q.
Proof. unfold decimal.of_Z. simpl. apply Qred_correct. Qed.
Lemma this_Q2Qc (q : Q) : (this (Q2Qc q) == q)%Q.
Proof. simpl. apply Qred_correct. Qed.

Ltac qc_push :=
  repeat first
    [ rewrite this_plus | rewrite this_minus | rewrite this_mult
    | rewrite this_opp | rewrite this_of_Z | rewrite this_Q2Qc ].
Ltac qc_push_in H :=
  repeat first
    [ rewrite this_plus in H | rewrite this_minus in H | rewrite this_mult in H
    | rewrite this_opp in H | rewrite this_of_Z in H | rewrite this_Q2Qc in H ].

Ltac qc_prep :=
  repeat match goal with
  | H : @eq Qc ?x ?y |- _ =>
      let H' := fresh in
      assert (H' : (this x == this y)%Q) by (rewrite H; reflexivity);
      clear H; qc_push_in H'
  | H : ~ @eq Qc ?x ?y |- _ =>
      let H' := fresh in
      assert (H' : ~ (this x == this y)%Q) by (intros ?; apply H, Qc_is_canon; assumption);
      clear H; qc_push_in H'
  | H : Qcle ?x ?y |- _ => unfold Qcle in H; qc_push_in H
  | H : Qclt ?x ?y |- _ => unfold Qclt in H; qc_push_in H
  | H : ~ Qcle ?x ?y |- _ => unfold Qcle in H; qc_push_in H
  | H : ~ Qclt ?x ?y |- _ => unfold Qclt in H; qc_push_in H
  end;
  try match goal with
  | |- @eq Qc _ _ => apply Qc_is_canon
  | |- ~ @eq Qc _ _ => let H := fresh in intros H; exfalso
  end;
  unfold Qcle, Qclt; qc_push; unfold inject_Z in *.

Ltac qc_lra := qc_prep; lra.




(** ** Equations of the monad and of the helper methods *)

Lemma bind_Returns {A B} (m : method A) (k : A -> method B) self a self' :
  m self = Returns a self' -> bind m k self = k a self'.
Proof. unfold bind. intros ->. reflexivity. Qed.

Lemma bind_Raises {A B} (m : method A) (k : A -> method B) self e self' :
  m self = Raises e self' -> bind m k self = Raises e self'.
Proof. unfold bind. intros ->. reflexivity. Qed.

Lemma assert_session_Returns user self :
  logged_in_as user self -> _assert_session self = Returns user self.
Proof. intros [Hs Hu]. unfold _assert_session. rewrite Hs, Hu. reflexivity. Qed.

Lemma assert_session_Raises self :
  no_session self ->
  _assert_session self = Raises (SecurityError "No active session") self.
Proof.
  unfold _assert_session. intros [H|H]; rewrite H; [reflexivity|].
  destruct (session_active self); reflexivity.
Qed.


Lemma session_dec self :
  (exists user, logged_in_as user self) \/ no_session self.
Proof.
  unfold logged_in_as, no_session.
  destruct (session_active self), (current_user self); eauto.
Qed.

Lemma getitem_Some {V} (d : gmap string V) key v self :
  d !! key = Some v -> getitem d key self = Returns v self.
Proof. unfold getitem. intros ->. reflexivity. Qed.


Lemma check_balance_Returns user account self :
  logged_in_as user self -> accounts self !! user = Some account ->
  check_balance self = Returns (saldo account) self.
Proof.
  intros Hin Ha. unfold check_balance.
  erewrite bind_Returns by (by apply assert_session_Returns).
  unfold get at 1. unfold bind at 1.
  erewrite bind_Returns by (by apply getitem_Some).
  reflexivity.
Qed.

Lemma get_daily_total_Returns user trans_type now of_user user_totals self :
  daily_totals self !! user = Some of_user ->
  of_user !! trans_type = Some user_totals ->
  _get_daily_total user trans_type now self =
    Returns (usage_on user trans_type (date_of now) self) self.
Proof.
  intros Hd Ht. unfold _get_daily_total, usage_on.
  unfold get at 1. unfold bind at 1.
  erewrite bind_Returns by (by apply getitem_Some).
  erewrite bind_Returns by (by apply getitem_Some).
  rewrite Hd. simpl. rewrite Ht. reflexivity.
Qed.

Lemma update_saldo_Returns user f account self :
  accounts self !! user = Some account ->
  update_saldo user f self = Returns tt (map_saldo user f self).
Proof.
  intros Ha. unfold update_saldo, map_saldo, balance_of.
  unfold get at 1. unfold bind at 1.
  erewrite bind_Returns by (by apply getitem_Some).
  rewrite Ha. reflexivity.
Qed.

Lemma update_daily_total_Returns user trans_type amount now of_user user_totals self :
  daily_totals self !! user = Some of_user ->
  of_user !! trans_type = Some user_totals ->
  _update_daily_total user trans_type amount now self =
    Returns tt (record_usage user trans_type amount (date_of now) self).
Proof.
  intros Hd Ht. unfold _update_daily_total, record_usage, usage_on.
  unfold get at 1. unfold bind at 1.
  erewrite bind_Returns by (by apply getitem_Some).
  erewrite bind_Returns by (by apply getitem_Some).
  rewrite Hd. simpl. rewrite Ht. reflexivity.
Qed.

Lemma log_transaction_Returns user trans self :
  _log_transaction user trans self = Returns tt (append_record user trans self).
Proof. reflexivity. Qed.

(** What the three state changes keep. *)
Lemma accounts_map_saldo user f self other :
  other <> user ->
  accounts (map_saldo user f self) !! other = accounts self !! other.
Proof. intros. unfold map_saldo. simpl. by rewrite lookup_insert_ne. Qed.

Lemma account_map_saldo user f account self :
  accounts self !! user = Some account ->
  accounts (map_saldo user f self) !! user =
    Some (mkAccount (password_hash account) (f (saldo account))).
Proof.
  intros Ha. unfold map_saldo, balance_of. simpl.
  rewrite lookup_insert_eq, Ha. reflexivity.
Qed.

Ltac step :=
  first
    [ erewrite bind_Returns by (apply assert_session_Returns; eassumption)
    | erewrite bind_Returns by (eapply check_balance_Returns; eassumption)
    | erewrite bind_Returns by (eapply get_daily_total_Returns; eassumption)
    | erewrite bind_Returns by (eapply update_saldo_Returns; eassumption)
    | erewrite bind_Returns by (eapply update_daily_total_Returns; eassumption)
    | erewrite bind_Returns by (apply log_transaction_Returns) ].

Lemma withdraw_spec user account of_user user_totals amount now self :
  logged_in_as user self ->
  accounts self !! user = Some account ->
  daily_totals self !! user = Some of_user ->
  of_user !! "withdrawal"%string = Some user_totals ->
  withdraw (Dec amount) now self =
    if decimal.leb amount 0 then Returns (false, Amount_must_be_positive) self
    else if negb (decimal.eqb (decimal.rem amount (decimal.of_Z 50000)) 0)
    then Returns (false, Amount_must_be_in_multiples) self
    else if decimal.ltb (saldo account) amount
    then Returns (false, Insufficient_funds) self
    else if decimal.ltb (decimal.of_Z 5000000)
                        (usage_on user "withdrawal" (date_of now) self + amount)%Qc
    then Returns (false, Daily_limit_exceeded (decimal.of_Z 5000000)) self
    else Returns (true, Successfully_withdrawn amount) (withdrawn user amount now self).
Proof.
  intros Hin Ha Hd Ht. unfold withdraw. step.
  destruct (decimal.leb amount 0); [reflexivity|].
  destruct (negb _); [reflexivity|].
  step. destruct (decimal.ltb (saldo account) amount); [reflexivity|].
  step. destruct (decimal.ltb _ _); [reflexivity|].
  step.
  pose proof (account_map_saldo user (fun saldo => (saldo - amount)%Qc) _ _ Ha) as Ha'.
  set (s1 := map_saldo _ _ self) in *.
  assert (daily_totals s1 !! user = Some of_user) as Hd1 by done.
  step.
  set (s2 := record_usage _ _ _ _ s1) in *.
  assert (logged_in_as user s2) as Hin2 by done.
  assert (accounts s2 !! user = Some (mkAccount (password_hash account) (saldo account - amount)%Qc))
    as Ha2 by done.
  step. step. unfold ret, withdrawn. simpl.
  unfold balance_of. rewrite Ha. reflexivity.
Qed.

Lemma deposit_spec user account of_user user_totals amount now self :
  logged_in_as user self ->
  accounts self !! user = Some account ->
  daily_totals self !! user = Some of_user ->
  of_user !! "deposit"%string = Some user_totals ->
  deposit (Dec amount) now self =
    if decimal.leb amount 0 then Returns (false, Amount_must_be_positive) self
    else Returns (true, Successfully_deposited amount) (deposited user amount now self).
Proof.
  intros Hin Ha Hd Ht. unfold deposit. step.
  destruct (decimal.leb amount 0); [reflexivity|].
  step.
  pose proof (account_map_saldo user (fun saldo => (saldo + amount)%Qc) _ _ Ha) as Ha'.
  set (s1 := map_saldo _ _ self) in *.
  assert (daily_totals s1 !! user = Some of_user) as Hd1 by done.
  step.
  set (s2 := record_usage _ _ _ _ s1) in *.
  assert (logged_in_as user s2) as Hin2 by done.
  assert (accounts s2 !! user = Some (mkAccount (password_hash account) (saldo account + amount)%Qc))
    as Ha2 by done.
  step. step. unfold ret, deposited. simpl.
  unfold balance_of. rewrite Ha. reflexivity.
Qed.

Lemma simulate_interest_spec user account interest_rate now self :
  logged_in_as user self ->
  accounts self !! user = Some account ->
  simulate_interest interest_rate now self =
    Returns (true, Interest_applied (saldo account * interest_rate)%Qc
                     (saldo account + saldo account * interest_rate)%Qc)
            (accrued user interest_rate now self).
Proof.
  intros Hin Ha. unfold simulate_interest. step. step. step.
  pose proof (account_map_saldo user
    (fun b => (b + saldo account * interest_rate)%Qc) _ _ Ha) as Ha'.
  set (s1 := map_saldo _ _ self) in *.
  assert (logged_in_as user s1) as Hin1 by done.
  step. step.
  unfold get at 1. unfold bind at 1.
  set (s2 := append_record _ _ s1) in *.
  assert (accounts s2 !! user =
          Some (mkAccount (password_hash account)
                  (saldo account + saldo account * interest_rate)%Qc)) as Ha2 by done.
  erewrite bind_Returns by (by apply getitem_Some).
  unfold ret, accrued. simpl. subst s2 s1.
  unfold balance_of. rewrite Ha. reflexivity.
Qed.

Lemma change_pin_spec user account old_pin new_pin self :
  logged_in_as user self ->
  accounts self !! user = Some account ->
  change_pin old_pin new_pin self =
    if decide (_hash_password old_pin = password_hash account)
    then Returns (true, PIN_successfully_changed) (pin_changed user new_pin self)
    else Returns (false, Incorrect_old_PIN) self.
Proof.
  intros Hin Ha. unfold change_pin. step.
  unfold get at 1. unfold bind at 1.
  erewrite bind_Returns by (by apply getitem_Some).
  destruct (decide (_hash_password old_pin = _)) as [Heq|Hne].
  - rewrite decide_False by (intros Hne; by apply Hne).
    unfold pin_changed, balance_of. rewrite Ha. reflexivity.
  - rewrite decide_True by done. reflexivity.
Qed.

Lemma get_transaction_history_spec user self :
  logged_in_as user self ->
  get_transaction_history self = Returns (history_of user self) self.
Proof. intros Hin. unfold get_transaction_history. step. reflexivity. Qed.

(** [transfer] once the recipient has passed the two guards. *)
Lemma transfer_spec user account of_user wd_totals tr_totals recipient payee
    amount now self :
  logged_in_as user self ->
  accounts self !! user = Some account ->
  daily_totals self !! user = Some of_user ->
  of_user !! "withdrawal"%string = Some wd_totals ->
  of_user !! "transfer"%string = Some tr_totals ->
  accounts self !! str.upper (str.strip recipient) = Some payee ->
  str.upper (str.strip recipient) <> user ->
  transfer recipient (Dec amount) now self =
    if decimal.leb amount 0 then Returns (false, Amount_must_be_positive) self
    else if negb (decimal.eqb (decimal.rem amount (decimal.of_Z 50000)) 0)
    then Returns (false, Amount_must_be_in_multiples) self
    else if decimal.ltb (saldo account) amount
    then Returns (false, Insufficient_funds) self
    else if decimal.ltb (decimal.of_Z 5000000)
                        (usage_on user "withdrawal" (date_of now) self + amount)%Qc
    then Returns (false, Daily_limit_exceeded (decimal.of_Z 5000000)) self
    else Returns (true, Successfully_transferred amount (str.upper (str.strip recipient)))
                 (transferred user (str.upper (str.strip recipient)) amount now self).
Proof.
  intros Hin Ha Hd Hw Ht Hr Hne. unfold transfer. step.
  set (r := str.upper (str.strip recipient)) in *.
  unfold get at 1. unfold bind at 1. rewrite Hr.
  destruct (decide (r = user)) as [|_]; [done|].
  unfold bind at 1. rewrite (withdraw_spec _ _ _ _ _ _ _ Hin Ha Hd Hw).
  destruct (decimal.leb amount 0); [reflexivity|].
  destruct (negb _); [reflexivity|].
  destruct (decimal.ltb (saldo account) amount); [reflexivity|].
  destruct (decimal.ltb _ _); [reflexivity|].
  cbn [negb].
  set (s1 := withdrawn user amount now self).
  assert (logged_in_as user s1) as Hin1 by done.
  assert (accounts s1 !! r = Some payee) as Hr1.
  { unfold s1, withdrawn. simpl. by rewrite lookup_insert_ne. }
  assert (accounts s1 !! user =
          Some (mkAccount (password_hash account) (saldo account - amount)%Qc)) as Ha1.
  { unfold s1, withdrawn. simpl. unfold balance_of.
    rewrite lookup_insert_eq, Ha. reflexivity. }
  assert (exists of_user1, daily_totals s1 !! user = Some of_user1 /\
            of_user1 !! "transfer"%string = Some tr_totals) as (of_user1 & Hd1 & Ht1).
  { eexists. split.
    - unfold s1, withdrawn. simpl. apply lookup_insert_eq.
    - simpl. rewrite Hd. simpl. by rewrite lookup_insert_ne. }
  step.
  set (s2 := map_saldo r _ s1) in *.
  assert (daily_totals s2 !! user = Some of_user1) as Hd2 by done.
  step.
  set (s3 := record_usage _ _ _ _ s2) in *.
  assert (logged_in_as user s3) as Hin3 by done.
  assert (accounts s3 !! user =
          Some (mkAccount (password_hash account) (saldo account - amount)%Qc)) as Ha3.
  { unfold s3, s2. simpl. by rewrite lookup_insert_ne. }
  step. step. unfold ret, transferred. simpl.
  unfold balance_of. rewrite Ha. reflexivity.
Qed.

(** Without a session every operation of the engine raises. *)
Lemma engine_raises_without_session self :
  no_session self ->
  let e := SecurityError "No active session" in
  check_balance self = Raises e self /\
  (forall amount now, withdraw amount now self = Raises e self) /\
  (forall amount now, deposit amount now self = Raises e self) /\
  (forall recipient amount now, transfer recipient amount now self = Raises e self) /\
  (forall old_pin new_pin, change_pin old_pin new_pin self = Raises e self) /\
  (forall rate now, simulate_interest rate now self = Raises e self) /\
  get_transaction_history self = Raises e self.
Proof.
  intros Hno e. pose proof (assert_session_Raises _ Hno) as H.
  repeat split; intros;
    unfold check_balance, withdraw, deposit, transfer, change_pin,
      simulate_interest, get_transaction_history;
    by erewrite bind_Raises.
Qed.

(** ** What a successful call tells about the state it started from *)





(** ** Well-formed states: what the constructor sets up and every call keeps *)

Lemma has_totals_empty_totals user self :
  daily_totals self !! user = Some empty_totals -> has_totals user self.
Proof.
  intros H. exists empty_totals. unfold empty_totals.
  repeat split; try done; eexists; by simplify_map_eq.
Qed.

Lemma load_entry_totals self entry :
  (forall user, is_Some (accounts self !! user) -> has_totals user self) ->
  forall user, is_Some (accounts (load_entry self entry) !! user) ->
               has_totals user (load_entry self entry).
Proof.
  intros IH user. destruct entry as [[username pw_hash] balance].
  unfold load_entry. simpl.
  set (key := str.upper (str.strip username)).
  destruct (decide (key = user)) as [->|Hne].
  - intros _. apply has_totals_empty_totals. simpl. apply lookup_insert_eq.
  - rewrite lookup_insert_ne by done. intros Hacc.
    destruct (IH user Hacc) as (of_user & Hd & Hrest).
    exists of_user. split; [|done]. simpl. by rewrite lookup_insert_ne.
Qed.

Lemma load_entry_session self entry :
  current_user (load_entry self entry) = current_user self /\
  session_active (load_entry self entry) = session_active self.
Proof. by destruct entry as [[? ?] ?]. Qed.

Lemma well_formed_init initial_data : well_formed (__init__ initial_data).
Proof.
  unfold __init__, _load_initial_data.
  set (data := default default_initial_data initial_data). clearbody data.
  assert (forall self,
            (forall user, is_Some (accounts self !! user) -> has_totals user self) ->
            current_user self = None ->
            well_formed (foldl load_entry self data)) as Hfold.
  { induction data as [|entry data IH]; intros self Htot Hcur; simpl.
    - split; [done|]. intros user Hu. congruence.
    - apply IH.
      + by apply load_entry_totals.
      + by rewrite (proj1 (load_entry_session self entry)). }
  apply Hfold; [|done].
  intros user [account Hacc]. simpl in Hacc. by rewrite lookup_empty in Hacc.
Qed.

Lemma wf_lookups user self :
  well_formed self -> logged_in_as user self ->
  exists account of_user wd_totals dp_totals tr_totals,
    accounts self !! user = Some account /\
    daily_totals self !! user = Some of_user /\
    of_user !! "withdrawal"%string = Some wd_totals /\
    of_user !! "deposit"%string = Some dp_totals /\
    of_user !! "transfer"%string = Some tr_totals.
Proof.
  intros [Htot Hcur] [_ Hu].
  destruct (Hcur user Hu) as [account Ha].
  destruct (Htot user (ex_intro _ account Ha))
    as (of_user & Hd & [wd Hwd] & [dp Hdp] & [tr Htr]).
  by exists account, of_user, wd, dp, tr.
Qed.

Lemma wf_map_saldo user f self :
  well_formed self -> is_Some (accounts self !! user) ->
  well_formed (map_saldo user f self).
Proof.
  intros [Htot Hcur] Hin. split.
  - intros other. unfold map_saldo. simpl.
    destruct (decide (user = other)) as [<-|Hne].
    + intros _. by apply (Htot user).
    + rewrite lookup_insert_ne by done. apply (Htot other).
  - intros other Hu. unfold map_saldo. simpl.
    destruct (decide (user = other)) as [<-|Hne].
    + rewrite lookup_insert_eq. by eexists.
    + rewrite lookup_insert_ne by done. by apply Hcur.
Qed.

Lemma has_totals_record_usage user trans_type amount day self other :
  has_totals other self ->
  has_totals other (record_usage user trans_type amount day self).
Proof.
  intros (of_user & Hd & Hw & Hp & Ht). unfold has_totals, record_usage. simpl.
  destruct (decide (user = other)) as [<-|Hne].
  - rewrite lookup_insert_eq, Hd. simpl. eexists. split; [reflexivity|].
    repeat split.
    all: match goal with
         | |- is_Some (<[_ := _]> _ !! ?k) =>
             destruct (decide (trans_type = k)) as [->|];
             [rewrite lookup_insert_eq; by eexists | by rewrite lookup_insert_ne]
         end.
  - rewrite lookup_insert_ne by done. by exists of_user.
Qed.

Lemma wf_record_usage user trans_type amount day self :
  well_formed self -> well_formed (record_usage user trans_type amount day self).
Proof.
  intros [Htot Hcur]. split; [|done].
  intros other Hin. apply has_totals_record_usage. by apply Htot.
Qed.

Lemma wf_append_record user trans self :
  well_formed self -> well_formed (append_record user trans self).
Proof. intros [Htot Hcur]. by split. Qed.

Lemma wf_pin_changed user new_pin self :
  well_formed self -> is_Some (accounts self !! user) ->
  well_formed (pin_changed user new_pin self).
Proof.
  intros [Htot Hcur] Hin. split.
  - intros other. unfold pin_changed. simpl.
    destruct (decide (user = other)) as [<-|Hne].
    + intros _. by apply (Htot user).
    + rewrite lookup_insert_ne by done. apply (Htot other).
  - intros other Hu. unfold pin_changed. simpl.
    destruct (decide (user = other)) as [<-|Hne].
    + rewrite lookup_insert_eq. by eexists.
    + rewrite lookup_insert_ne by done. by apply Hcur.
Qed.

Lemma wf_set_failed_attempts v self :
  well_formed self -> well_formed (set_failed_attempts v self).
Proof. intros [Htot Hcur]. by split. Qed.

Lemma wf_logout self : well_formed self -> well_formed (logout self).
Proof.
  intros [Htot Hcur]. unfold logout. destruct (session_active self); [|done].
  split; [done|]. intros user Hu. simpl in Hu. congruence.
Qed.

(** ** The outcomes of the engine on a well-formed state with a session *)

Lemma leb_false x y : decimal.leb x y = false <-> (y < x)%Qc.
Proof.
  unfold decimal.leb. rewrite bool_decide_eq_false. split.
  - apply Qcnot_le_lt.
  - apply Qclt_not_le.
Qed.

Lemma ltb_false x y : decimal.ltb x y = false <-> (y <= x)%Qc.
Proof.
  unfold decimal.ltb. rewrite bool_decide_eq_false. split.
  - apply Qcnot_lt_le.
  - apply Qcle_not_lt.
Qed.



Lemma not_multiple_false x y :
  negb (decimal.eqb (decimal.rem x y) 0) = false <-> decimal.rem x y = 0%Qc.
Proof.
  unfold decimal.eqb. rewrite negb_false_iff. apply bool_decide_eq_true.
Qed.


Lemma withdraw_cases user amount now self :
  well_formed self -> logged_in_as user self ->
  (exists message, withdraw amount now self = Returns (false, message) self) \/
  (exists a, amount = Dec a /\ withdrawable user a now self /\
     withdraw amount now self =
       Returns (true, Successfully_withdrawn a) (withdrawn user a now self)).
Proof.
  intros Hwf Hin.
  destruct (wf_lookups _ _ Hwf Hin) as (account & of_user & wd & dp & tr & Ha & Hd & Hw & _).
  destruct amount as [a|].
  2: { left. eexists. unfold withdraw. step. reflexivity. }
  rewrite (withdraw_spec _ _ _ _ _ _ _ Hin Ha Hd Hw).
  destruct (decimal.leb a 0) eqn:E1; [eauto|].
  destruct (negb (decimal.eqb _ _)) eqn:E2; [eauto|].
  destruct (decimal.ltb (saldo account) a) eqn:E3; [eauto|].
  destruct (decimal.ltb (decimal.of_Z 5000000) _) eqn:E4; [eauto|].
  right. exists a. split; [done|]. split; [|done].
  unfold withdrawable, balance_of. rewrite Ha. simpl.
  apply leb_false in E1. apply not_multiple_false in E2.
  apply ltb_false in E3. apply ltb_false in E4. done.
Qed.

Lemma deposit_cases user amount now self :
  well_formed self -> logged_in_as user self ->
  (exists message, deposit amount now self = Returns (false, message) self) \/
  (exists a, amount = Dec a /\ (0 < a)%Qc /\
     deposit amount now self =
       Returns (true, Successfully_deposited a) (deposited user a now self)).
Proof.
  intros Hwf Hin.
  destruct (wf_lookups _ _ Hwf Hin) as (account & of_user & wd & dp & tr & Ha & Hd & _ & Hp & _).
  destruct amount as [a|].
  2: { left. eexists. unfold deposit. step. reflexivity. }
  rewrite (deposit_spec _ _ _ _ _ _ _ Hin Ha Hd Hp).
  destruct (decimal.leb a 0) eqn:E1; [eauto|].
  right. exists a. apply leb_false in E1. done.
Qed.

Lemma transfer_cases user recipient amount now self :
  well_formed self -> logged_in_as user self ->
  (exists message, transfer recipient amount now self = Returns (false, message) self) \/
  (exists a, amount = Dec a /\ withdrawable user a now self /\
     is_Some (accounts self !! str.upper (str.strip recipient)) /\
     str.upper (str.strip recipient) <> user /\
     transfer recipient amount now self =
       Returns (true, Successfully_transferred a (str.upper (str.strip recipient)))
               (transferred user (str.upper (str.strip recipient)) a now self)).
Proof.
  intros Hwf Hin.
  destruct (wf_lookups _ _ Hwf Hin) as (account & of_user & wd & dp & tr & Ha & Hd & Hw & _ & Ht).
  set (r := str.upper (str.strip recipient)).
  destruct (accounts self !! r) as [payee|] eqn:Hr.
  2: { left. eexists. unfold transfer. step. fold r.
       unfold get at 1. unfold bind at 1. rewrite Hr. reflexivity. }
  destruct (decide (r = user)) as [Heq|Hne].
  { left. eexists. unfold transfer. step. fold r.
    unfold get at 1. unfold bind at 1. rewrite Hr.
    rewrite decide_True by done. reflexivity. }
  destruct amount as [a|].
  2: { left. eexists. unfold transfer. step. fold r.
       unfold get at 1. unfold bind at 1. rewrite Hr.
       rewrite decide_False by done.
       erewrite bind_Returns.
       2: { unfold withdraw. step. reflexivity. }
       reflexivity. }
  rewrite (transfer_spec _ _ _ _ _ _ _ _ _ _ Hin Ha Hd Hw Ht Hr Hne). fold r.
  destruct (decimal.leb a 0) eqn:E1; [eauto|].
  destruct (negb (decimal.eqb _ _)) eqn:E2; [eauto|].
  destruct (decimal.ltb (saldo account) a) eqn:E3; [eauto|].
  destruct (decimal.ltb (decimal.of_Z 5000000) _) eqn:E4; [eauto|].
  right. exists a. split; [done|]. split; [|done].
  unfold withdrawable, balance_of. rewrite Ha. simpl.
  apply leb_false in E1. apply not_multiple_false in E2.
  apply ltb_false in E3. apply ltb_false in E4. done.
Qed.

(** ** What [authenticate] can change *)

Lemma authenticate_frame username password now self :
  let self' := (authenticate username password now self).2 in
  accounts self' = accounts self /\
  daily_totals self' = daily_totals self /\
  transaction_history self' = transaction_history self /\
  (current_user self' = current_user self \/
   current_user self' = Some (str.upper (str.strip username)) /\
   is_Some (accounts self !! str.upper (str.strip username))).
Proof.
  unfold authenticate, check_credentials, _handle_failed_attempt.
  set (user := str.upper (str.strip username)).
  repeat case_match; simplify_eq/=; repeat split; eauto.
Qed.

Lemma check_balance_pure self : state_after (check_balance self) = self.
Proof.
  unfold check_balance, bind, _assert_session, get, getitem, ret, raise.
  repeat case_match; simplify_eq/=; done.
Qed.

Lemma get_transaction_history_pure self :
  state_after (get_transaction_history self) = self.
Proof.
  unfold get_transaction_history, bind, _assert_session, get, ret.
  repeat case_match; simplify_eq/=; done.
Qed.

Lemma wf_authenticate username password now self :
  well_formed self -> well_formed (authenticate username password now self).2.
Proof.
  intros [Htot Hcur].
  destruct (authenticate_frame username password now self) as (Ha & Hd & _ & Hu).
  split.
  - intros user. rewrite Ha. intros Hin.
    destruct (Htot user Hin) as (of_user & Hof & Hrest).
    exists of_user. by rewrite Hd.
  - intros user. rewrite Ha. destruct Hu as [-> | [-> Hin]].
    + apply Hcur.
    + intros [= <-]. done.
Qed.

Lemma wf_execute now c self :
  well_formed self -> well_formed (execute now c self).
Proof.
  intros Hwf. destruct c as [username password| | |amount|amount|recipient amount
                             |old_pin new_pin|rate|]; simpl.
  - by apply wf_authenticate.
  - by apply wf_logout.
  - by rewrite check_balance_pure.
  - destruct (session_dec self) as [[user Hin]|Hno].
    2: { destruct (engine_raises_without_session self Hno) as (_&->&_). done. }
    destruct (wf_lookups _ _ Hwf Hin) as (account & _ & _ & _ & _ & Ha & _).
    destruct (withdraw_cases user amount now self Hwf Hin)
      as [[m ->]|(a & _ & _ & ->)]; [done|]. simpl.
    apply wf_append_record, wf_record_usage, wf_map_saldo; eauto.
  - destruct (session_dec self) as [[user Hin]|Hno].
    2: { destruct (engine_raises_without_session self Hno) as (_&_&->&_). done. }
    destruct (wf_lookups _ _ Hwf Hin) as (account & _ & _ & _ & _ & Ha & _).
    destruct (deposit_cases user amount now self Hwf Hin)
      as [[m ->]|(a & _ & _ & ->)]; [done|]. simpl.
    apply wf_append_record, wf_record_usage, wf_map_saldo; eauto.
  - destruct (session_dec self) as [[user Hin]|Hno].
    2: { destruct (engine_raises_without_session self Hno) as (_&_&_&->&_). done. }
    destruct (wf_lookups _ _ Hwf Hin) as (account & _ & _ & _ & _ & Ha & _).
    destruct (transfer_cases user recipient amount now self Hwf Hin)
      as [[m ->]|(a & _ & _ & Hr & Hne & ->)]; [done|]. simpl.
    apply wf_append_record, wf_record_usage, wf_map_saldo.
    + apply wf_append_record, wf_record_usage, wf_map_saldo; eauto.
    + unfold withdrawn. simpl. by rewrite lookup_insert_ne.
  - destruct (session_dec self) as [[user Hin]|Hno].
    2: { destruct (engine_raises_without_session self Hno) as (_&_&_&_&->&_). done. }
    destruct (wf_lookups _ _ Hwf Hin) as (account & _ & _ & _ & _ & Ha & _).
    rewrite (change_pin_spec _ _ _ _ _ Hin Ha).
    case_decide; [|done]. simpl. apply wf_pin_changed; eauto.
  - destruct (session_dec self) as [[user Hin]|Hno].
    2: { destruct (engine_raises_without_session self Hno) as (_&_&_&_&_&->&_). done. }
    destruct (wf_lookups _ _ Hwf Hin) as (account & _ & _ & _ & _ & Ha & _).
    rewrite (simulate_interest_spec _ _ _ _ _ Hin Ha). simpl.
    apply wf_append_record, wf_map_saldo; eauto.
  - by rewrite get_transaction_history_pure.
Qed.

Lemma wf_run script self : well_formed self -> well_formed (run script self).
Proof.
  revert self. induction script as [|[now c] script IH]; intros self Hwf; [done|].
  simpl. apply IH. by apply wf_execute.
Qed.

(** Every state a caller can reach from the constructor is well formed. *)
Corollary reachable_well_formed initial_data script :
  well_formed (run script (__init__ initial_data)).
Proof. apply wf_run, well_formed_init. Qed.

(** ** Balances stay non-negative *)

Lemma nonneg_map_saldo user f account self :
  balances_nonneg self ->
  accounts self !! user = Some account ->
  (0 <= f (saldo account))%Qc ->
  balances_nonneg (map_saldo user f self).
Proof.
  intros Hnn Ha Hf other acc. unfold map_saldo, balance_of. simpl.
  destruct (decide (user = other)) as [<-|Hne].
  - rewrite lookup_insert_eq, Ha. intros [= <-]. done.
  - rewrite lookup_insert_ne by done. apply Hnn.
Qed.

Lemma nonneg_withdrawn user a now self :
  balances_nonneg self -> is_Some (accounts self !! user) ->
  withdrawable user a now self ->
  balances_nonneg (withdrawn user a now self).
Proof.
  intros Hnn [account Ha] (Hpos & _ & Hle & _).
  unfold balance_of in Hle. rewrite Ha in Hle. simpl in Hle.
  unfold withdrawn.
  apply (nonneg_map_saldo user _ account self Hnn Ha). qc_lra.
Qed.

Lemma nonneg_execute now c self :
  well_formed self -> balances_nonneg self ->
  match c with
  | SimulateInterest interest_rate => (- (1) <= interest_rate)%Qc
  | _ => True
  end ->
  balances_nonneg (execute now c self).
Proof.
  intros Hwf Hnn Hrate.
  destruct c as [username password| | |amount|amount|recipient amount
                 |old_pin new_pin|rate|]; simpl.
  - destruct (authenticate_frame username password now self) as (Ha & _).
    unfold balances_nonneg. rewrite Ha. apply Hnn.
  - unfold logout. by destruct (session_active self).
  - by rewrite check_balance_pure.
  - destruct (session_dec self) as [[user Hin]|Hno].
    2: { destruct (engine_raises_without_session self Hno) as (_&->&_). done. }
    destruct (wf_lookups _ _ Hwf Hin) as (account & _ & _ & _ & _ & Ha & _).
    destruct (withdraw_cases user amount now self Hwf Hin)
      as [[m ->]|(a & _ & Hok & ->)]; [done|]. simpl.
    apply nonneg_withdrawn; eauto.
  - destruct (session_dec self) as [[user Hin]|Hno].
    2: { destruct (engine_raises_without_session self Hno) as (_&_&->&_). done. }
    destruct (wf_lookups _ _ Hwf Hin) as (account & _ & _ & _ & _ & Ha & _).
    destruct (deposit_cases user amount now self Hwf Hin)
      as [[m ->]|(a & _ & Hpos & ->)]; [done|]. simpl.
    unfold deposited.
    apply (nonneg_map_saldo user _ account self Hnn Ha).
    pose proof (Hnn _ _ Ha). qc_lra.
  - destruct (session_dec self) as [[user Hin]|Hno].
    2: { destruct (engine_raises_without_session self Hno) as (_&_&_&->&_). done. }
    destruct (wf_lookups _ _ Hwf Hin) as (account & _ & _ & _ & _ & Ha & _).
    destruct (transfer_cases user recipient amount now self Hwf Hin)
      as [[m ->]|(a & _ & Hok & [payee Hr] & Hne & ->)]; [done|]. simpl.
    unfold transferred.
    assert (balances_nonneg (withdrawn user a now self)) as Hnn1
      by (apply nonneg_withdrawn; eauto).
    assert (accounts (withdrawn user a now self) !! str.upper (str.strip recipient)
            = Some payee) as Hr1.
    { unfold withdrawn. simpl. by rewrite lookup_insert_ne. }
    apply (nonneg_map_saldo _ _ payee _ Hnn1 Hr1).
    pose proof (Hnn _ _ Hr). destruct Hok as (Hpos & _). qc_lra.
  - destruct (session_dec self) as [[user Hin]|Hno].
    2: { destruct (engine_raises_without_session self Hno) as (_&_&_&_&->&_). done. }
    destruct (wf_lookups _ _ Hwf Hin) as (account & _ & _ & _ & _ & Ha & _).
    rewrite (change_pin_spec _ _ _ _ _ Hin Ha).
    case_decide; [|done]. simpl.
    intros other acc. unfold pin_changed, balance_of. simpl.
    destruct (decide (user = other)) as [<-|Hne'].
    + rewrite lookup_insert_eq, Ha. intros [= <-]. simpl. by apply (Hnn user).
    + rewrite lookup_insert_ne by done. apply Hnn.
  - destruct (session_dec self) as [[user Hin]|Hno].
    2: { destruct (engine_raises_without_session self Hno) as (_&_&_&_&_&->&_). done. }
    destruct (wf_lookups _ _ Hwf Hin) as (account & _ & _ & _ & _ & Ha & _).
    rewrite (simulate_interest_spec _ _ _ _ _ Hin Ha). simpl.
    unfold accrued, balance_of. rewrite Ha. simpl.
    apply (nonneg_map_saldo user _ account self Hnn Ha).
    pose proof (Hnn _ _ Ha) as Hb. qc_prep.
    assert (0 <= this (saldo account) * (1 + this rate))%Q
      by (apply Qmult_le_0_compat; lra).
    lra.
  - by rewrite get_transaction_history_pure.
Qed.

Lemma nonneg_run script self :
  well_formed self -> balances_nonneg self -> rates_from (- (1))%Qc script ->
  balances_nonneg (run script self).
Proof.
  revert self.
  induction script as [|[now c] script IH]; intros self Hwf Hnn Hrates; [done|].
  inversion Hrates as [|call rest Hc Hrest]; subst. simpl.
  apply IH; [by apply wf_execute | | done].
  apply nonneg_execute; [done..|]. simpl in Hc. by destruct c.
Qed.

Lemma nonneg_init initial_data :
  Forall (fun entry : string * string * Decimal => (0 <= entry.2)%Qc) initial_data ->
  balances_nonneg (__init__ (Some initial_data)).
Proof.
  unfold __init__, _load_initial_data. simpl.
  assert (balances_nonneg (mkATMSystem ∅ ∅ ∅ ∅ false None)) as Hempty.
  { intros user account H. simpl in H. by rewrite lookup_empty in H. }
  revert Hempty. generalize (mkATMSystem ∅ ∅ ∅ ∅ false None).
  induction initial_data as [|[[username pw_hash] balance] data IH];
    intros self Hnn Hall; [done|].
  inversion Hall as [|entry rest Hentry Hrest]; subst. simpl.
  apply IH; [|done].
  intros user account. simpl.
  destruct (decide (str.upper (str.strip username) = user)) as [<-|Hne].
  - rewrite lookup_insert_eq. intros [= <-]. done.
  - rewrite lookup_insert_ne by done. apply Hnn.
Qed.

(** ** Failures leave no trace *)





(** ** The sum of the balances *)




(** ** Records appended to the history *)




(** ** The lockout of [authenticate] *)




Lemma check_credentials_wrong user password now account self :
  accounts self !! user = Some account ->
  _hash_password password <> password_hash account ->
  check_credentials user password now self =
    let attempts :=
      match failed_attempts self !! user with
      | Some (attempts, _) => (attempts + 1)%Z
      | None => 1%Z
      end in
    (false, [Login_failed (Z.max 0 (3 - attempts))],
     set_failed_attempts (<[user := (attempts, now)]> (failed_attempts self)) self).
Proof.
  intros Ha Hne. unfold check_credentials. rewrite Ha.
  rewrite decide_False by done. reflexivity.
Qed.

Lemma check_credentials_right user password now account self :
  accounts self !! user = Some account ->
  _hash_password password = password_hash account ->
  check_credentials user password now self =
    (true, [],
     set_session true (Some user)
       (set_failed_attempts (<[user := (0%Z, now)]> (failed_attempts self)) self)).
Proof.
  intros Ha Heq. unfold check_credentials. rewrite Ha.
  rewrite decide_True by done. reflexivity.
Qed.



(** ** Logging in *)

Lemma authenticate_right username password now account self :
  accounts self !! str.upper (str.strip username) = Some account ->
  _hash_password password = password_hash account ->
  locked_out (str.upper (str.strip username)) now self = false ->
  authenticate username password now self =
    (true, [],
     set_session true (Some (str.upper (str.strip username)))
       (set_failed_attempts
          (<[str.upper (str.strip username) := (0%Z, now)]> (failed_attempts self))
          self)).
Proof.
  intros Ha Hp Hfree. unfold locked_out in Hfree. unfold authenticate.
  set (user := str.upper (str.strip username)) in *.
  destruct (failed_attempts self !! user) as [[attempts last]|] eqn:Hf.
  - destruct (3 <=? attempts)%Z; simpl in Hfree.
    + rewrite Hfree.
      rewrite (check_credentials_right _ _ _ account) by done.
      unfold set_failed_attempts, set_session. simpl.
      by rewrite insert_insert_eq.
    + by apply (check_credentials_right _ _ _ account).
  - by apply (check_credentials_right _ _ _ account).
Qed.

(** An attempt with a wrong credential on an account that is not locked
    out is turned down with "Login failed". *)
Lemma authenticate_wrong_free username password now account self :
  accounts self !! str.upper (str.strip username) = Some account ->
  _hash_password password <> password_hash account ->
  locked_out (str.upper (str.strip username)) now self = false ->
  exists remaining self',
    authenticate username password now self = (false, [Login_failed remaining], self').
Proof.
  intros Ha Hp Hfree. unfold locked_out in Hfree. unfold authenticate.
  set (user := str.upper (str.strip username)) in *.
  destruct (failed_attempts self !! user) as [[attempts last]|] eqn:Hf.
  - destruct (3 <=? attempts)%Z; simpl in Hfree.
    + rewrite Hfree.
      rewrite (check_credentials_wrong _ _ _ account) by done. eauto.
    + rewrite (check_credentials_wrong _ _ _ account) by done. eauto.
  - rewrite (check_credentials_wrong _ _ _ account) by done. eauto.
Qed.

(** A successful authentication found the account, its credential and
    no lockout. *)
Lemma authenticate_success_inv username password now self :
  (authenticate username password now self).1.1 = true ->
  exists account,
    accounts self !! str.upper (str.strip username) = Some account /\
    _hash_password password = password_hash account /\
    locked_out (str.upper (str.strip username)) now self = false.
Proof.
  unfold authenticate, locked_out, check_credentials, _handle_failed_attempt.
  set (user := str.upper (str.strip username)).
  destruct (failed_attempts self !! user) as [[attempts last]|].
  - destruct (3 <=? attempts)%Z; simpl.
    + destruct (seconds_lt (now - last) 300); [done|].
      destruct (accounts self !! user) as [account|]; [|done].
      case_decide; [eauto|done].
    + destruct (accounts self !! user) as [account|]; [|done].
      case_decide; [eauto|done].
  - destruct (accounts self !! user) as [account|]; [|done].
    case_decide; [eauto|done].
Qed.

(** ** The daily withdrawal limit *)

Lemma usage_record_usage user trans_type amount day self of_user user_totals
    other_type other_day :
  daily_totals self !! user = Some of_user ->
  of_user !! trans_type = Some user_totals ->
  usage_on user other_type other_day (record_usage user trans_type amount day self) =
    if decide (other_type = trans_type /\ other_day = day)
    then (usage_on user trans_type day self + amount)%Qc
    else usage_on user other_type other_day self.
Proof.
  intros Hd Ht. unfold record_usage. unfold usage_on at 1. simpl.
  rewrite lookup_insert_eq. simpl. rewrite Hd. simpl. rewrite Ht. simpl.
  destruct (decide (other_type = trans_type)) as [->|Hty].
  - rewrite lookup_insert_eq. simpl.
    destruct (decide (other_day = day)) as [->|Hday].
    + rewrite lookup_insert_eq. simpl. by rewrite decide_True.
    + rewrite lookup_insert_ne by done.
      rewrite decide_False by (intros [_ ?]; done).
      unfold usage_on. rewrite Hd. simpl. by rewrite Ht.
  - rewrite lookup_insert_ne by done.
    rewrite decide_False by (intros [? _]; done).
    unfold usage_on. by rewrite Hd.
Qed.



Lemma wf_withdrawn user a now self :
  well_formed self -> logged_in_as user self ->
  well_formed (withdrawn user a now self) /\ logged_in_as user (withdrawn user a now self).
Proof.
  intros Hwf Hin. split; [|done].
  destruct (wf_lookups _ _ Hwf Hin) as (account & _ & _ & _ & _ & Ha & _).
  apply wf_append_record, wf_record_usage, wf_map_saldo; eauto.
Qed.





(** * The properties of the specification *)

(** ** Records appended by the engine *)




(** ** Non-negative balances *)




(** ** Failures leave the state unchanged *)



(** ** Conservation under transfer *)



(** ** Lockout after three failures *)



(** ** The daily withdrawal limit, per date *)






(** ** Amounts that are no multiple of 50,000 *)




(** ** Errors: returned or raised *)




(** ** Changing the PIN *)

(** C9 (as amended): with a session, when the digest of the old PIN
    matches the stored hash, [change_pin] succeeds, stores the digest of
    the new PIN and appends no record; afterwards, on an account that is
    not locked out, authentication with the new PIN succeeds, and
    authentication with the old PIN fails with "Login failed" provided the
    two digests differ (PINs that differ only in surrounding blanks have
    the same digest).  When the digest of the old PIN does not match,
    [change_pin] returns "Incorrect old PIN" and changes nothing. *)
Theorem C9_change_pin
    (self : ATMSystem) (user : string) (account : Account)
    (old_pin new_pin : string) :
  logged_in_as user self ->
  accounts self !! user = Some account ->
  (_hash_password old_pin = password_hash account ->
   let self' := pin_changed user new_pin self in
   change_pin old_pin new_pin self = Returns (true, PIN_successfully_changed) self' /\
   accounts self' !! user = Some (mkAccount (_hash_password new_pin) (saldo account)) /\
   transaction_history self' = transaction_history self /\
   forall username now,
     str.upper (str.strip username) = user ->
     locked_out user now self' = false ->
     (authenticate username new_pin now self').1 = (true, []) /\
     (_hash_password new_pin <> _hash_password old_pin ->
      exists remaining,
        (authenticate username old_pin now self').1 = (false, [Login_failed remaining])))
  /\
  (_hash_password old_pin <> password_hash account ->
   change_pin old_pin new_pin self = Returns (false, Incorrect_old_PIN) self).
Proof.
  intros Hin Ha. rewrite (change_pin_spec _ _ _ _ _ Hin Ha). split.
  - intros Hold. cbv zeta. rewrite decide_True by done.
    assert (accounts (pin_changed user new_pin self) !! user =
            Some (mkAccount (_hash_password new_pin) (saldo account))) as Ha'.
    { unfold pin_changed, balance_of. simpl. rewrite lookup_insert_eq, Ha. done. }
    repeat (split; [done|]).
    intros username now <- Hfree. split.
    + by rewrite (authenticate_right _ _ _ _ _ Ha').
    + intros Hdiff.
      destruct (authenticate_wrong_free username old_pin now _ _ Ha')
        as (remaining & s & ->); [simpl; congruence | done |].
      by exists remaining.
  - intros Hbad. by rewrite decide_False.
Qed.

Lemma C9_change_pin_witness :
  change_pin "8830" "4321" ata_session =
    Returns (true, PIN_successfully_changed) (pin_changed "ATA" "4321" ata_session) /\
  (authenticate "ata" "4321" (t0 + minute) (pin_changed "ATA" "4321" ata_session)).1
    = (true, []) /\
  (exists remaining,
     (authenticate "ata" "8830" (t0 + minute) (pin_changed "ATA" "4321" ata_session)).1
       = (false, [Login_failed remaining])) /\
  change_pin "0000" "4321" ata_session = Returns (false, Incorrect_old_PIN) ata_session.
Proof.
  assert (logged_in_as "ATA" ata_session) as Hin by (vm_compute; split; reflexivity).
  assert (accounts ata_session !! "ATA"%string =
          Some (mkAccount (_hash_password "8830") (decimal.of_Z 100000))) as Ha
    by (vm_compute; reflexivity).
  destruct (C9_change_pin ata_session "ATA" _ "8830" "4321" Hin Ha) as [Hgood _].
  destruct (C9_change_pin ata_session "ATA" _ "0000" "4321" Hin Ha) as [_ Hbad].
  destruct Hgood as (Hret & _ & _ & Hauth); [vm_compute; reflexivity|].
  destruct (Hauth "ata"%string (t0 + minute)%Z) as [Hnew Hold];
    [vm_compute; reflexivity | vm_compute; reflexivity |].
  split; [exact Hret|]. split; [exact Hnew|]. split.
  - apply Hold. vm_compute. discriminate.
  - apply Hbad. vm_compute. discriminate.
Defined.

(** C9 as stated fails.  The new PIN " 8830" differs from the old PIN
    "8830", the change succeeds, and authentication with the old PIN still
    succeeds afterwards, since [_hash_password] trims its argument.  And
    after three wrong PINs for ATA entered during ATA's session, a change
    of PIN succeeds but authentication with the new PIN a minute later is
    turned down as locked. *)
Lemma C9_trimmed_pin_counterexample :
  let o := change_pin "8830" " 8830" ata_session in
  let locked :=
    run [ (t0, Authenticate "ata" "0000"); (t0, Authenticate "ata" "1111");
          (t0, Authenticate "ata" "2222") ] ata_session in
  let p := change_pin "8830" "4321" locked in
  (" 8830"%string <> "8830"%string /\
   returned o = Some (true, PIN_successfully_changed) /\
   (authenticate "ATA" "8830" (t0 + minute) (state_after o)).1 = (true, [])) /\
  (logged_in_as "ATA" locked /\
   returned p = Some (true, PIN_successfully_changed) /\
   (authenticate "ATA" "4321" (t0 + minute) (state_after p)).1
     = (false, [Account_locked 4])).
Proof.
  cbv zeta. split.
  - split; [discriminate|]. split; vm_compute; reflexivity.
  - split; [vm_compute; split; reflexivity|]. split; vm_compute; reflexivity.
Qed.

(** ** A second login rebinds the session *)

(** C10: while a session is active for one account, an authentication
    that succeeds for another account binds the session to that other
    account: the call prints nothing and leaves the session active with
    the new user, the first user's session is gone without a logout, and
    nothing but the session and the new user's failure counter changes.
    Such an authentication succeeds whenever the other account exists, the
    credential matches and the account is not locked out. *)
Theorem C10_session_rebinds
    (self : ATMSystem) (first username password : string) (now : datetime) :
  let second := str.upper (str.strip username) in
  let r := authenticate username password now self in
  logged_in_as first self ->
  second <> first ->
  (r.1.1 = true ->
   r.1 = (true, []) /\
   is_Some (accounts self !! second) /\
   logged_in_as second r.2 /\
   ~ logged_in_as first r.2 /\
   accounts r.2 = accounts self /\
   daily_totals r.2 = daily_totals self /\
   transaction_history r.2 = transaction_history self /\
   failed_attempts r.2 = <[second := (0%Z, now)]> (failed_attempts self)) /\
  (forall account,
      accounts self !! second = Some account ->
      _hash_password password = password_hash account ->
      locked_out second now self = false ->
      r.1.1 = true).
Proof.
  intros second r Hin Hne. subst r. split.
  - intros Hok.
    destruct (authenticate_success_inv _ _ _ _ Hok) as (account & Ha & Hp & Hfree).
    fold second in Ha, Hfree.
    rewrite (authenticate_right _ _ _ account) by done. fold second.
    cbn [fst snd]. split; [done|]. split; [by eexists|].
    repeat (split; [done|]). split; [|done].
    intros [_ Hu]. simpl in Hu. congruence.
  - intros account Ha Hp Hfree.
    by rewrite (authenticate_right _ _ _ account).
Qed.

Lemma C10_session_rebinds_witness :
  logged_in_as "ATA" ata_session /\
  (authenticate " Aisyah" "8790" (t0 + minute) ata_session).1 = (true, []) /\
  logged_in_as "AISYAH" (authenticate " Aisyah" "8790" (t0 + minute) ata_session).2 /\
  ~ logged_in_as "ATA" (authenticate " Aisyah" "8790" (t0 + minute) ata_session).2.
Proof.
  assert (logged_in_as "ATA" ata_session) as Hin by (vm_compute; split; reflexivity).
  assert (str.upper (str.strip " Aisyah") <> "ATA"%string) as Hne
    by (vm_compute; discriminate).
  destruct (C10_session_rebinds ata_session "ATA" " Aisyah" "8790" (t0 + minute)
              Hin Hne) as [Hrebinds _].
  destruct Hrebinds as (Hr & _ & Hsecond & Hfirst & _); [vm_compute; reflexivity|].
  split; [exact Hin|]. split; [exact Hr|]. split; [|exact Hfirst].
  revert Hsecond. vm_compute. tauto.
Defined.

(** * Further properties of the code *)

(** ** One call of the engine, case by case *)

Lemma execute_engine_effect now c self :
  well_formed self -> engine_command c = true ->
  engine_effect now self (execute now c self).
Proof.
  intros Hwf Hc.
  destruct (session_dec self) as [[user Hin]|Hno].
  2: { destruct (engine_raises_without_session self Hno)
         as (H1 & H2 & H3 & H4 & H5 & H6 & H7).
       destruct c; try done; simpl;
         rewrite ?H1, ?H2, ?H3, ?H4, ?H5, ?H6, ?H7; apply effect_none. }
  destruct (wf_lookups _ _ Hwf Hin) as (account & of_user & wd & dp & tr & Ha & _).
  destruct c as [username password| | |amount|amount|recipient amount
                 |old_pin new_pin|rate|]; try done; simpl.
  - rewrite check_balance_pure. apply effect_none.
  - destruct (withdraw_cases user amount now self Hwf Hin)
      as [[m ->]|(a & _ & Hok & ->)]; simpl; [apply effect_none|].
    by apply effect_withdrawn.
  - destruct (deposit_cases user amount now self Hwf Hin)
      as [[m ->]|(a & _ & Hpos & ->)]; simpl; [apply effect_none|].
    by apply effect_deposited.
  - destruct (transfer_cases user recipient amount now self Hwf Hin)
      as [[m ->]|(a & _ & Hok & Hr & Hne & ->)]; simpl; [apply effect_none|].
    by apply effect_transferred.
  - rewrite (change_pin_spec _ _ _ _ _ Hin Ha).
    case_decide; simpl; [by apply effect_pin_changed | apply effect_none].
  - rewrite (simulate_interest_spec _ _ _ _ _ Hin Ha). simpl.
    by apply effect_accrued.
  - rewrite get_transaction_history_pure. apply effect_none.
Qed.

(** ** What the parts of a state change keep *)

Lemma dom_insert_existing {V} (m : gmap string V) k v :
  is_Some (m !! k) -> dom (<[k := v]> m) = dom m.
Proof.
  intros Hk. rewrite dom_insert_L. apply elem_of_dom in Hk.
  by apply subseteq_union_1_L, singleton_subseteq_l.
Qed.

Lemma logged_in_account user self :
  well_formed self -> logged_in_as user self -> is_Some (accounts self !! user).
Proof. intros [_ Hcur] [_ Hu]. by apply Hcur. Qed.

Lemma accounts_withdrawn user a now self :
  accounts (withdrawn user a now self) =
    accounts (map_saldo user (fun saldo => (saldo - a)%Qc) self).
Proof. reflexivity. Qed.

Lemma accounts_deposited user a now self :
  accounts (deposited user a now self) =
    accounts (map_saldo user (fun saldo => (saldo + a)%Qc) self).
Proof. reflexivity. Qed.

Lemma accounts_transferred user recipient a now self :
  accounts (transferred user recipient a now self) =
    accounts (map_saldo recipient (fun saldo => (saldo + a)%Qc)
                (map_saldo user (fun saldo => (saldo - a)%Qc) self)).
Proof. reflexivity. Qed.

Lemma accounts_accrued user rate now self :
  accounts (accrued user rate now self) =
    accounts (map_saldo user
                (fun saldo => (saldo + default 0%Qc (balance_of user self) * rate)%Qc)
                self).
Proof. reflexivity. Qed.

Lemma map_saldo_hash user f self other :
  is_Some (accounts self !! user) ->
  password_hash <$> accounts (map_saldo user f self) !! other =
  password_hash <$> accounts self !! other.
Proof.
  intros [account Ha]. unfold map_saldo. simpl.
  destruct (decide (user = other)) as [<-|Hne].
  - rewrite lookup_insert_eq, Ha. reflexivity.
  - by rewrite lookup_insert_ne.
Qed.

Lemma map_saldo_dom user f self :
  is_Some (accounts self !! user) ->
  dom (accounts (map_saldo user f self)) = dom (accounts self).
Proof. intros Hin. unfold map_saldo. simpl. by apply dom_insert_existing. Qed.

Lemma map_saldo_is_Some user f self other :
  is_Some (accounts self !! other) ->
  is_Some (accounts (map_saldo user f self) !! other).
Proof.
  intros Hin. unfold map_saldo. simpl.
  destruct (decide (user = other)) as [<-|Hne].
  - rewrite lookup_insert_eq. by eexists.
  - by rewrite lookup_insert_ne.
Qed.

Lemma engine_frame (now : datetime) (c : command) (self : ATMSystem) :
  well_formed self -> engine_command c = true ->
  session_active (execute now c self) = session_active self /\
  current_user (execute now c self) = current_user self /\
  failed_attempts (execute now c self) = failed_attempts self /\
  dom (accounts (execute now c self)) = dom (accounts self).
Proof.
  intros Hwf Hc.
  destruct (execute_engine_effect now c self Hwf Hc)
    as [|user a Hin Hok|user a Hin Hpos|user r a Hin Hok Hr Hne|user rate Hin
        |user new_pin Hin]; repeat (split; [done|]).
  - done.
  - rewrite accounts_withdrawn. eauto using map_saldo_dom, logged_in_account.
  - rewrite accounts_deposited. eauto using map_saldo_dom, logged_in_account.
  - rewrite accounts_transferred.
    rewrite map_saldo_dom by (apply map_saldo_is_Some; done).
    eauto using map_saldo_dom, logged_in_account.
  - rewrite accounts_accrued. eauto using map_saldo_dom, logged_in_account.
  - unfold pin_changed. simpl.
    apply dom_insert_existing. eauto using logged_in_account.
Qed.

(** X1: calls of the engine never touch the session or the failure
    counters, and never add or remove an account: after any sequence of
    engine calls (no [authenticate], no [logout]) the session flag, the
    current user, the failure counters and the set of account names are
    what they were. *)
Theorem X1_engine_keeps_session
    (script : list (datetime * command)) (self : ATMSystem) :
  well_formed self ->
  Forall (fun call : datetime * command => engine_command call.2 = true) script ->
  session_active (run script self) = session_active self /\
  current_user (run script self) = current_user self /\
  failed_attempts (run script self) = failed_attempts self /\
  dom (accounts (run script self)) = dom (accounts self).
Proof.
  revert self. induction script as [|[now c] script IH]; intros self Hwf Hall; [done|].
  apply Forall_cons_1 in Hall as [Hc Hrest]. simpl in Hc. simpl.
  destruct (engine_frame now c self Hwf Hc) as (Hs & Hu & Hf & Hd).
  destruct (IH (execute now c self)) as (Hs' & Hu' & Hf' & Hd');
    [by apply wf_execute | done |].
  by rewrite Hs', Hu', Hf', Hd'.
Qed.

Lemma ata_session_well_formed : well_formed ata_session.
Proof. apply (wf_authenticate "ata" "8830" t0 atm0), well_formed_init. Qed.

Lemma ata_session_logged_in : logged_in_as "ATA" ata_session.
Proof. vm_compute. split; reflexivity. Qed.

Lemma engine_script_is_engine :
  Forall (fun call : datetime * command => engine_command call.2 = true) engine_script.
Proof. repeat (apply Forall_cons; [reflexivity|]). apply Forall_nil. Qed.

Lemma X1_engine_keeps_session_witness :
  session_active (run engine_script ata_session) = session_active ata_session /\
  current_user (run engine_script ata_session) = current_user ata_session /\
  failed_attempts (run engine_script ata_session) = failed_attempts ata_session /\
  dom (accounts (run engine_script ata_session)) = dom (accounts ata_session).
Proof.
  exact (X1_engine_keeps_session engine_script ata_session
           ata_session_well_formed engine_script_is_engine).
Defined.

(** X2: a call of the engine leaves every account other than the caller's
    (and, for a transfer, the recipient's) exactly as it was; no call but
    [change_pin] alters a stored credential hash, and [change_pin] alters
    no balance. *)
Theorem X2_accounts_frame (now : datetime) (c : command) (self : ATMSystem)
    (user : string) :
  well_formed self -> logged_in_as user self -> engine_command c = true ->
  (forall other,
      other <> user ->
      match c with
      | Transfer recipient _ => other <> str.upper (str.strip recipient)
      | _ => True
      end ->
      accounts (execute now c self) !! other = accounts self !! other) /\
  (match c with
   | ChangePin _ _ =>
       forall other, balance_of other (execute now c self) = balance_of other self
   | _ =>
       forall other,
         password_hash <$> accounts (execute now c self) !! other =
         password_hash <$> accounts self !! other
   end).
Proof.
  intros Hwf Hin Hc.
  pose proof (logged_in_account _ _ Hwf Hin) as [account Ha].
  destruct c as [username password| | |amount|amount|recipient amount
                 |old_pin new_pin|rate|]; try done; cbn [execute].
  - rewrite check_balance_pure. done.
  - destruct (withdraw_cases user amount now self Hwf Hin)
      as [[m ->]|(a & _ & Hok & ->)]; cbn [state_after]; [done|]. split.
    + intros other Hne _. rewrite accounts_withdrawn. by apply accounts_map_saldo.
    + intros other. rewrite accounts_withdrawn. apply map_saldo_hash. by eexists.
  - destruct (deposit_cases user amount now self Hwf Hin)
      as [[m ->]|(a & _ & Hpos & ->)]; cbn [state_after]; [done|]. split.
    + intros other Hne _. rewrite accounts_deposited. by apply accounts_map_saldo.
    + intros other. rewrite accounts_deposited. apply map_saldo_hash. by eexists.
  - destruct (transfer_cases user recipient amount now self Hwf Hin)
      as [[m ->]|(a & _ & Hok & Hr & Hne & ->)]; cbn [state_after]; [done|]. split.
    + intros other Hou Hor. rewrite accounts_transferred.
      rewrite accounts_map_saldo by done. by apply accounts_map_saldo.
    + intros other. rewrite accounts_transferred.
      rewrite map_saldo_hash by (by apply map_saldo_is_Some).
      apply map_saldo_hash. by eexists.
  - rewrite (change_pin_spec _ _ _ _ _ Hin Ha).
    case_decide; cbn [state_after]; [|done]. split.
    + intros other Hne _. unfold pin_changed. simpl. by rewrite lookup_insert_ne.
    + intros other. unfold pin_changed, balance_of. simpl.
      destruct (decide (user = other)) as [<-|Hne].
      * rewrite lookup_insert_eq, Ha. reflexivity.
      * by rewrite lookup_insert_ne.
  - rewrite (simulate_interest_spec _ _ _ _ _ Hin Ha). cbn [state_after]. split.
    + intros other Hne _. rewrite accounts_accrued. by apply accounts_map_saldo.
    + intros other. rewrite accounts_accrued. apply map_saldo_hash. by eexists.
  - rewrite get_transaction_history_pure. done.
Qed.

Lemma X2_accounts_frame_witness :
  (forall other,
      other <> "ATA"%string ->
      other <> str.upper (str.strip "aisyah") ->
      accounts (execute t0 (Transfer "aisyah" (Dec (decimal.of_Z 50000))) ata_session)
        !! other = accounts ata_session !! other) /\
  (forall other,
      password_hash <$>
        accounts (execute t0 (Transfer "aisyah" (Dec (decimal.of_Z 50000))) ata_session)
          !! other =
      password_hash <$> accounts ata_session !! other).
Proof.
  exact (X2_accounts_frame t0 (Transfer "aisyah" (Dec (decimal.of_Z 50000)))
           ata_session "ATA" ata_session_well_formed ata_session_logged_in eq_refl).
Defined.

(** ** Histories only grow *)

Lemma history_of_append_record user trans self other :
  history_of other (append_record user trans self) =
    if decide (other = user) then history_of user self ++ [trans]
    else history_of other self.
Proof.
  unfold append_record, history_of. simpl.
  destruct (decide (other = user)) as [->|Hne].
  - by rewrite lookup_insert_eq.
  - by rewrite lookup_insert_ne.
Qed.

Lemma history_of_withdrawn user a now self other :
  history_of other (withdrawn user a now self) =
    if decide (other = user)
    then history_of user self ++
         [mkTransaction now "withdrawal" a
            (default 0%Qc (balance_of user self) - a)%Qc None]
    else history_of other self.
Proof. unfold withdrawn. by rewrite history_of_append_record. Qed.

Lemma history_of_deposited user a now self other :
  history_of other (deposited user a now self) =
    if decide (other = user)
    then history_of user self ++
         [mkTransaction now "deposit" a
            (default 0%Qc (balance_of user self) + a)%Qc None]
    else history_of other self.
Proof. unfold deposited. by rewrite history_of_append_record. Qed.

Lemma history_of_accrued user rate now self other :
  history_of other (accrued user rate now self) =
    if decide (other = user)
    then history_of user self ++
         [mkTransaction now "interest"
            (default 0%Qc (balance_of user self) * rate)%Qc
            (default 0%Qc (balance_of user self)
             + default 0%Qc (balance_of user self) * rate)%Qc None]
    else history_of other self.
Proof. unfold accrued. by rewrite history_of_append_record. Qed.

Lemma history_of_transferred user recipient a now self other :
  history_of other (transferred user recipient a now self) =
    if decide (other = user)
    then history_of user self ++
         [mkTransaction now "withdrawal" a
            (default 0%Qc (balance_of user self) - a)%Qc None;
          mkTransaction now "transfer" a
            (default 0%Qc (balance_of user self) - a)%Qc (Some recipient)]
    else history_of other self.
Proof.
  unfold transferred. rewrite history_of_append_record.
  change (history_of user (record_usage user "transfer" a (date_of now)
            (map_saldo recipient (fun saldo => (saldo + a)%Qc)
               (withdrawn user a now self))))
    with (history_of user (withdrawn user a now self)).
  change (history_of other (record_usage user "transfer" a (date_of now)
            (map_saldo recipient (fun saldo => (saldo + a)%Qc)
               (withdrawn user a now self))))
    with (history_of other (withdrawn user a now self)).
  rewrite !history_of_withdrawn.
  destruct (decide (other = user)) as [->|Hne]; [|done].
  rewrite decide_True by done. by rewrite <- app_assoc.
Qed.

Lemma history_prefix_execute now c self other :
  well_formed self ->
  history_of other self `prefix_of` history_of other (execute now c self).
Proof.
  intros Hwf. destruct (engine_command c) eqn:Hc.
  - destruct (execute_engine_effect now c self Hwf Hc)
      as [|user a Hin Hok|user a Hin Hpos|user r a Hin Hok Hr Hne|user rate Hin
          |user new_pin Hin]; try done.
    + rewrite history_of_withdrawn. case_decide; [subst|done]. by apply prefix_app_r.
    + rewrite history_of_deposited. case_decide; [subst|done]. by apply prefix_app_r.
    + rewrite history_of_transferred. case_decide; [subst|done]. by apply prefix_app_r.
    + rewrite history_of_accrued. case_decide; [subst|done]. by apply prefix_app_r.
  - destruct c; try done; simpl.
    + destruct (authenticate_frame username password now self) as (_ & _ & Hh & _).
      unfold history_of. by rewrite Hh.
    + unfold logout. by destruct (session_active self).
Qed.

(** X3: histories are append-only.  Whatever calls are made, in whatever
    order and whether they succeed or not, every account's history after
    them starts with its history before them: no record is ever removed,
    reordered or rewritten. *)
Theorem X3_history_append_only
    (initial_data : option (list (string * string * Decimal)))
    (before after : list (datetime * command)) (user : string) :
  history_of user (run before (__init__ initial_data))
    `prefix_of` history_of user (run (before ++ after) (__init__ initial_data)).
Proof.
  unfold run at 2. rewrite foldl_app. fold (run before (__init__ initial_data)).
  pose proof (reachable_well_formed initial_data before) as Hwf.
  revert Hwf. generalize (run before (__init__ initial_data)).
  induction after as [|[now c] after IH]; intros self Hwf; [done|].
  simpl. etrans; [by apply (history_prefix_execute now c)|].
  apply IH. by apply wf_execute.
Qed.

(** ** Daily usage only grows *)

Lemma usage_on_record_usage user trans_type amount day self other kind date :
  has_totals user self ->
  trans_type = "withdrawal"%string \/ trans_type = "deposit"%string
    \/ trans_type = "transfer"%string ->
  usage_on other kind date (record_usage user trans_type amount day self) =
    if decide (other = user /\ kind = trans_type /\ date = day)
    then (usage_on user trans_type day self + amount)%Qc
    else usage_on other kind date self.
Proof.
  intros (of_user & Hd & Hw & Hp & Ht) Hkind.
  assert (is_Some (of_user !! trans_type)) as [user_totals Hut]
    by (destruct Hkind as [->|[->| ->]]; done).
  destruct (decide (other = user)) as [->|Hne].
  - rewrite (usage_record_usage user trans_type amount day self of_user user_totals)
      by done.
    destruct (decide (kind = trans_type /\ date = day)) as [[-> ->]|Hne].
    + by rewrite decide_True.
    + rewrite decide_False; [done|]. intros (_ & ? & ?). by apply Hne.
  - rewrite decide_False by (intros (? & _); done).
    unfold usage_on, record_usage. simpl. by rewrite lookup_insert_ne.
Qed.

Lemma usage_le_record_usage user trans_type amount day self other kind date :
  has_totals user self ->
  trans_type = "withdrawal"%string \/ trans_type = "deposit"%string
    \/ trans_type = "transfer"%string ->
  (0 < amount)%Qc ->
  (usage_on other kind date self
   <= usage_on other kind date (record_usage user trans_type amount day self))%Qc.
Proof.
  intros Htot Hkind Hpos. rewrite usage_on_record_usage by done.
  case_decide as Heq; [|apply Qcle_refl].
  destruct Heq as (-> & -> & ->). qc_lra.
Qed.

Lemma has_totals_logged_in user self :
  well_formed self -> logged_in_as user self -> has_totals user self.
Proof. intros Hwf Hin. apply Hwf. by apply logged_in_account. Qed.

Lemma usage_le_execute now c self other kind date :
  well_formed self ->
  (usage_on other kind date self <= usage_on other kind date (execute now c self))%Qc.
Proof.
  intros Hwf. destruct (engine_command c) eqn:Hc.
  - destruct (execute_engine_effect now c self Hwf Hc)
      as [|user a Hin Hok|user a Hin Hpos|user r a Hin Hok Hr Hne|user rate Hin
          |user new_pin Hin]; try apply Qcle_refl.
    + apply (usage_le_record_usage user "withdrawal" a (date_of now)
               (map_saldo user (fun saldo => (saldo - a)%Qc) self));
        [exact (has_totals_logged_in user self Hwf Hin) | by left | by destruct Hok].
    + apply (usage_le_record_usage user "deposit" a (date_of now)
               (map_saldo user (fun saldo => (saldo + a)%Qc) self));
        [exact (has_totals_logged_in user self Hwf Hin) | by right; left | done].
    + destruct (wf_withdrawn user a now self Hwf Hin) as [Hwf1 Hin1].
      eapply Qcle_trans.
      * apply (usage_le_record_usage user "withdrawal" a (date_of now)
                 (map_saldo user (fun saldo => (saldo - a)%Qc) self));
          [exact (has_totals_logged_in user self Hwf Hin) | by left | by destruct Hok].
      * apply (usage_le_record_usage user "transfer" a (date_of now)
                 (map_saldo r (fun saldo => (saldo + a)%Qc)
                    (withdrawn user a now self)));
          [exact (has_totals_logged_in user (withdrawn user a now self) Hwf1 Hin1)
          | by right; right | by destruct Hok].
  - destruct c; try done; simpl.
    + destruct (authenticate_frame username password now self) as (_ & Hd & _).
      unfold usage_on. rewrite Hd. apply Qcle_refl.
    + unfold logout. destruct (session_active self); apply Qcle_refl.
Qed.

(** X4: daily usage never decreases.  Whatever calls are made, the
    accumulated amount of every account, kind and date after them is at
    least what it was before them. *)
Theorem X4_usage_never_decreases
    (initial_data : option (list (string * string * Decimal)))
    (before after : list (datetime * command))
    (user kind : string) (day : date) :
  (usage_on user kind day (run before (__init__ initial_data))
   <= usage_on user kind day (run (before ++ after) (__init__ initial_data)))%Qc.
Proof.
  unfold run at 2. rewrite foldl_app. fold (run before (__init__ initial_data)).
  pose proof (reachable_well_formed initial_data before) as Hwf.
  revert Hwf. generalize (run before (__init__ initial_data)).
  induction after as [|[now c] after IH]; intros self Hwf; [apply Qcle_refl|].
  simpl. eapply Qcle_trans; [by apply (usage_le_execute now c)|].
  apply IH. by apply wf_execute.
Qed.

(** ** Invariants of the session and of the failure counters *)

Lemma consistent_init initial_data : consistent (__init__ initial_data).
Proof.
  unfold __init__, _load_initial_data.
  set (data := default default_initial_data initial_data). clearbody data.
  assert (forall self,
            session_active self = false -> current_user self = None ->
            failed_attempts self = ∅ ->
            consistent (foldl load_entry self data)) as Hfold.
  { induction data as [|entry data IH]; intros self Hs Hu Hf; simpl.
    - split.
      + rewrite Hs, Hu. split; [done|]. by intros [? ?].
      + intros user n t. by rewrite Hf, lookup_empty.
    - apply IH; by destruct entry as [[? ?] ?]. }
  by apply Hfold.
Qed.

Lemma consistent_authenticate username password now self :
  consistent self -> consistent (authenticate username password now self).2.
Proof.
  intros [Hs Hc].
  unfold authenticate, check_credentials, _handle_failed_attempt.
  set (user := str.upper (str.strip username)).
  assert (forall v : gmap string (Z * datetime),
            (forall u n t, v !! u = Some (n, t) ->
                           (0 <= n <= 3)%Z /\ is_Some (accounts self !! u)) ->
            consistent (set_failed_attempts v self)) as Hset.
  { intros v Hv. by split. }
  assert (forall v : gmap string (Z * datetime),
            (forall u n t, v !! u = Some (n, t) ->
                           (0 <= n <= 3)%Z /\ is_Some (accounts self !! u)) ->
            is_Some (accounts self !! user) ->
            consistent (set_session true (Some user) (set_failed_attempts v self)))
    as Hlogin.
  { intros v Hv Hu. split; [|done]. simpl. split; [by eexists|done]. }
  assert (forall (v : gmap string (Z * datetime)) n,
            (forall u m t, v !! u = Some (m, t) ->
                           (0 <= m <= 3)%Z /\ is_Some (accounts self !! u)) ->
            (0 <= n <= 3)%Z -> is_Some (accounts self !! user) ->
            forall u m t, <[user := (n, now)]> v !! u = Some (m, t) ->
                          (0 <= m <= 3)%Z /\ is_Some (accounts self !! u)) as Hins.
  { intros v n Hv Hn Hu u m t.
    destruct (decide (user = u)) as [<-|Hne].
    - rewrite lookup_insert_eq. by intros [= <- <-].
    - rewrite lookup_insert_ne by done. apply Hv. }
  destruct (failed_attempts self !! user) as [[attempts last]|] eqn:Hf.
  - pose proof (Hc _ _ _ Hf) as [Hrange Hacc].
    destruct (3 <=? attempts)%Z eqn:Hthree.
    + destruct (seconds_lt (now - last) 300); [by split|].
      cbn [accounts set_failed_attempts failed_attempts].
      destruct Hacc as [account Ha]. rewrite Ha.
      assert (is_Some (accounts self !! user)) as Hu by (by eexists).
      case_decide; cbn [snd fst failed_attempts set_failed_attempts].
      * apply Hlogin; [|done].
        rewrite insert_insert_eq. apply Hins; [done|lia|done].
      * rewrite lookup_insert_eq. apply Hset.
        rewrite insert_insert_eq. apply Hins; [done|lia|done].
    + apply Z.leb_gt in Hthree.
      destruct Hacc as [account Ha]. rewrite Ha.
      assert (is_Some (accounts self !! user)) as Hu by (by eexists).
      case_decide; cbn [snd fst].
      * apply Hlogin; [|done]. apply Hins; [done|lia|done].
      * rewrite ?Hf. apply Hset. apply Hins; [done|lia|done].
  - destruct (accounts self !! user) as [account|] eqn:Ha; [|by split].
    assert (is_Some (accounts self !! user)) as Hu by (by eexists).
    case_decide; cbn [snd fst].
    + apply Hlogin; [|done]. apply Hins; [done|lia|done].
    + rewrite ?Hf. apply Hset. apply Hins; [done|lia|done].
Qed.

Lemma consistent_logout self : consistent self -> consistent (logout self).
Proof.
  intros [Hs Hc]. unfold logout.
  destruct (session_active self) eqn:Ha; [|split; [by rewrite Ha|done]].
  split; [|done]. simpl. split; [done|]. by intros [? ?].
Qed.

Lemma consistent_execute now c self :
  well_formed self -> consistent self -> consistent (execute now c self).
Proof.
  intros Hwf Hcons. destruct (engine_command c) eqn:Hc.
  - destruct (engine_frame now c self Hwf Hc) as (Hs & Hu & Hf & Hd).
    destruct Hcons as [Hagree Hcount]. split.
    + by rewrite Hs, Hu.
    + intros user n t. rewrite Hf. intros Hl.
      destruct (Hcount _ _ _ Hl) as [Hr Ha]. split; [done|].
      apply elem_of_dom. rewrite Hd. by apply elem_of_dom.
  - destruct c; try done; simpl.
    + by apply consistent_authenticate.
    + by apply consistent_logout.
Qed.

Lemma reachable_consistent
    (initial_data : option (list (string * string * Decimal)))
    (script : list (datetime * command)) :
  consistent (run script (__init__ initial_data)).
Proof.
  pose proof (well_formed_init initial_data) as Hwf.
  pose proof (consistent_init initial_data) as Hcons.
  revert Hwf Hcons. generalize (__init__ initial_data).
  induction script as [|[now c] script IH]; intros self Hwf Hcons; [done|].
  simpl. apply IH; [by apply wf_execute | by apply consistent_execute].
Qed.

(** X5: in every state that calls can reach from the constructor, the
    session flag is set exactly when there is a current user, the current
    user is an existing account, every failure counter belongs to an
    existing account and lies between 0 and 3, and every account has its
    three tables of daily totals. *)
Theorem X5_reachable_invariants
    (initial_data : option (list (string * string * Decimal)))
    (script : list (datetime * command)) :
  let self := run script (__init__ initial_data) in
  (session_active self = true <-> is_Some (current_user self)) /\
  (forall user, current_user self = Some user -> is_Some (accounts self !! user)) /\
  (forall user attempts last_attempt,
      failed_attempts self !! user = Some (attempts, last_attempt) ->
      (0 <= attempts <= 3)%Z /\ is_Some (accounts self !! user)) /\
  (forall user, is_Some (accounts self !! user) -> has_totals user self).
Proof.
  cbv zeta.
  destruct (reachable_well_formed initial_data script) as [Htot Hcur].
  destruct (reachable_consistent initial_data script) as [Hs Hc].
  done.
Qed.

Lemma X5_reachable_invariants_witness :
  (0 <= 3 <= 3)%Z /\
  is_Some (accounts (run (four_wrong_pins) (__init__ None))
             !! "ATA"%string).
Proof.
  apply (proj1 (proj2 (proj2
           (X5_reachable_invariants None (four_wrong_pins))))
           "ATA"%string 3%Z t0).
  vm_compute. reflexivity.
Defined.

(** ** Authentication: unknown names, failures, other accounts *)

(** X6: in every reachable state, authenticating a name that is no
    account returns [False], prints "User not found." and changes nothing
    at all: no counter is created or touched, and a session in progress
    stays as it is. *)
Theorem X6_unknown_user_changes_nothing
    (initial_data : option (list (string * string * Decimal)))
    (script : list (datetime * command))
    (username password : string) (now : datetime) :
  let self := run script (__init__ initial_data) in
  accounts self !! str.upper (str.strip username) = None ->
  authenticate username password now self = (false, [User_not_found], self).
Proof.
  cbv zeta. intros Hnone.
  destruct (reachable_consistent initial_data script) as [_ Hcount].
  unfold authenticate, check_credentials.
  set (user := str.upper (str.strip username)) in *.
  destruct (failed_attempts _ !! user) as [[attempts last]|] eqn:Hf.
  - destruct (Hcount _ _ _ Hf) as [_ [account Ha]]. congruence.
  - by rewrite Hnone.
Qed.

Lemma X6_unknown_user_changes_nothing_witness :
  authenticate "mallory" "0000" t0 (run sample_script (__init__ None))
    = (false, [User_not_found], run sample_script (__init__ None)).
Proof.
  apply (X6_unknown_user_changes_nothing None sample_script "mallory" "0000" t0).
  vm_compute. reflexivity.
Defined.

(** X7: [authenticate] never touches an account, a daily total or a
    history; it changes the failure counter of no name but the one it was
    given; and when it returns [False] the session is exactly what it was,
    so a session in progress survives failed logins. *)
Theorem X7_authenticate_frame
    (self : ATMSystem) (username password : string) (now : datetime) :
  let r := authenticate username password now self in
  accounts r.2 = accounts self /\
  daily_totals r.2 = daily_totals self /\
  transaction_history r.2 = transaction_history self /\
  (forall other, other <> str.upper (str.strip username) ->
     failed_attempts r.2 !! other = failed_attempts self !! other) /\
  (r.1.1 = false ->
     session_active r.2 = session_active self /\
     current_user r.2 = current_user self).
Proof.
  cbv zeta. unfold authenticate, check_credentials, _handle_failed_attempt.
  set (user := str.upper (str.strip username)).
  assert (forall (v : gmap string (Z * datetime)) entry other,
            other <> user -> <[user := entry]> v !! other = v !! other) as Hne
    by (intros; by rewrite lookup_insert_ne).
  destruct (failed_attempts self !! user) as [[attempts last]|].
  - destruct (3 <=? attempts)%Z.
    + destruct (seconds_lt (now - last) 300); [done|].
      cbn [accounts set_failed_attempts].
      destruct (accounts self !! user) as [account|].
      * case_decide; cbn [fst snd]; repeat (split; [done|]); split; try done.
        -- intros other Ho. simpl. by rewrite !Hne.
        -- intros other Ho. simpl. by rewrite !Hne.
      * repeat (split; [done|]). split; [|done].
        intros other Ho. simpl. by rewrite Hne.
    + destruct (accounts self !! user) as [account|]; [|done].
      case_decide; cbn [fst snd]; repeat (split; [done|]); split; try done.
      * intros other Ho. simpl. by rewrite Hne.
      * intros other Ho. simpl. by rewrite Hne.
  - destruct (accounts self !! user) as [account|]; [|done].
    case_decide; cbn [fst snd]; repeat (split; [done|]); split; try done.
    + intros other Ho. simpl. by rewrite Hne.
    + intros other Ho. simpl. by rewrite Hne.
Qed.

Lemma X7_authenticate_frame_witness :
  let r := authenticate "aisyah" "0000" t0 ata_session in
  failed_attempts r.2 !! "ATA"%string = failed_attempts ata_session !! "ATA"%string /\
  session_active r.2 = session_active ata_session /\
  current_user r.2 = current_user ata_session.
Proof.
  cbv zeta.
  destruct (X7_authenticate_frame ata_session "aisyah" "0000" t0)
    as (_ & _ & _ & Hother & Hfailed).
  split; [apply Hother; vm_compute; discriminate|].
  apply Hfailed. vm_compute. reflexivity.
Defined.

(** ** Logging out *)

(** X8: [logout] ends the session and nothing else: afterwards the flag is
    off and every operation of the engine raises "No active session";
    accounts, daily totals, histories and failure counters are what they
    were; a second [logout] changes nothing; and the user of a session
    that was active is forgotten. *)
Theorem X8_logout (self : ATMSystem) :
  let out := logout self in
  session_active out = false /\
  logout out = out /\
  accounts out = accounts self /\
  daily_totals out = daily_totals self /\
  transaction_history out = transaction_history self /\
  failed_attempts out = failed_attempts self /\
  (session_active self = true -> current_user out = None) /\
  (session_active self = false -> out = self) /\
  check_balance out = Raises (SecurityError "No active session") out /\
  (forall amount now,
      withdraw amount now out = Raises (SecurityError "No active session") out) /\
  (forall recipient amount now,
      transfer recipient amount now out
        = Raises (SecurityError "No active session") out) /\
  get_transaction_history out = Raises (SecurityError "No active session") out.
Proof.
  cbv zeta.
  assert (session_active (logout self) = false) as Hoff.
  { unfold logout. by destruct (session_active self) eqn:Hs. }
  destruct (engine_raises_without_session (logout self) (or_introl Hoff))
    as (Hc & Hw & _ & Ht & _ & _ & Hh).
  split; [done|]. split.
  { unfold logout at 1. by rewrite Hoff. }
  unfold logout in *. destruct (session_active self) eqn:Hs; done.
Qed.

Lemma X8_logout_witness :
  current_user (logout ata_session) = None /\ logout atm0 = atm0.
Proof.
  split.
  - apply (proj1 (proj2 (proj2 (proj2 (proj2 (proj2 (proj2
             (X8_logout ata_session)))))))).
    vm_compute. reflexivity.
  - apply (proj1 (proj2 (proj2 (proj2 (proj2 (proj2 (proj2 (proj2
             (X8_logout atm0))))))))).
    vm_compute. reflexivity.
Defined.

(** ** The guards of [transfer] *)

(** X9: with a session, [transfer] looks at the recipient before it looks
    at the amount: whatever the amount (negative, no multiple of 50,000,
    above the balance, or not a number at all), a recipient that is no
    account is answered "Recipient account not found" and a recipient
    that is the caller (in any spelling of the name) is answered "Cannot
    transfer to your own account"; in both cases nothing changes. *)
Theorem X9_transfer_guards
    (self : ATMSystem) (user recipient : string) (amount : argument)
    (now : datetime) :
  logged_in_as user self ->
  (accounts self !! str.upper (str.strip recipient) = None ->
   transfer recipient amount now self
     = Returns (false, Recipient_account_not_found) self) /\
  (str.upper (str.strip recipient) = user ->
   is_Some (accounts self !! user) ->
   transfer recipient amount now self
     = Returns (false, Cannot_transfer_to_own_account) self).
Proof.
  intros Hin. unfold transfer. step. split.
  - intros Hnone. unfold get at 1. unfold bind at 1. by rewrite Hnone.
  - intros Heq [account Ha]. unfold get at 1. unfold bind at 1.
    rewrite Heq, Ha. rewrite decide_True by done. reflexivity.
Qed.

Lemma X9_transfer_guards_witness :
  transfer "mallory" Malformed t0 ata_session
    = Returns (false, Recipient_account_not_found) ata_session /\
  transfer " ata " (Dec (decimal.of_Z (-1))) t0 ata_session
    = Returns (false, Cannot_transfer_to_own_account) ata_session.
Proof.
  split.
  - apply (proj1 (X9_transfer_guards ata_session "ATA" "mallory" Malformed t0
                    ata_session_logged_in)).
    vm_compute. reflexivity.
  - apply (proj2 (X9_transfer_guards ata_session "ATA" " ata "
                    (Dec (decimal.of_Z (-1))) t0 ata_session_logged_in)).
    + vm_compute. reflexivity.
    + vm_compute. by eexists.
Defined.

(** ** Deposits, transfers and interest in full *)







Lemma ata_account :
  accounts ata_session !! "ATA"%string
    = Some (mkAccount (_hash_password "8830") (decimal.of_Z 100000)).
Proof. vm_compute. reflexivity. Qed.






(** ** The last record and the balance *)

Lemma same_user user user' self :
  logged_in_as user self -> logged_in_as user' self -> user' = user.
Proof. intros [_ Hu] [_ Hu']. congruence. Qed.

Lemma last_two {A} (l : list A) (x y : A) : list.last (l ++ [x; y]) = Some y.
Proof.
  change (l ++ [x; y]) with (l ++ ([x] ++ [y])).
  rewrite app_assoc. apply last_snoc.
Qed.

(** X13: whenever a call of the engine appends to the caller's history,
    the last record carries the time of the call and, as its resulting
    balance, exactly the balance that [check_balance] reports right after
    the call. *)
Theorem X13_last_record_is_the_balance
    (now : datetime) (c : command) (self : ATMSystem) (user : string) :
  well_formed self -> logged_in_as user self -> engine_command c = true ->
  history_of user (execute now c self) <> history_of user self ->
  exists trans,
    list.last (history_of user (execute now c self)) = Some trans /\
    timestamp trans = now /\
    check_balance (execute now c self)
      = Returns (balance_after trans) (execute now c self).
Proof.
  intros Hwf Hin Hc Hgrew.
  pose proof (logged_in_account _ _ Hwf Hin) as [account Ha].
  destruct (execute_engine_effect now c self Hwf Hc)
    as [|user' a Hin' Hok|user' a Hin' Hpos|user' r a Hin' Hok Hr Hne|user' rate Hin'
        |user' new_pin Hin']; try done;
    pose proof (same_user _ _ _ Hin Hin') as ->.
  - eexists. rewrite history_of_withdrawn, decide_True by done.
    rewrite last_snoc. split; [done|]. split; [done|]. simpl.
    unfold balance_of. rewrite Ha. simpl.
    apply (check_balance_Returns user
             (mkAccount (password_hash account) (saldo account - a)%Qc)); [done|].
    rewrite accounts_withdrawn. by apply account_map_saldo.
  - eexists. rewrite history_of_deposited, decide_True by done.
    rewrite last_snoc. split; [done|]. split; [done|]. simpl.
    unfold balance_of. rewrite Ha. simpl.
    apply (check_balance_Returns user
             (mkAccount (password_hash account) (saldo account + a)%Qc)); [done|].
    rewrite accounts_deposited. by apply account_map_saldo.
  - eexists. rewrite history_of_transferred, decide_True by done.
    rewrite last_two.
    split; [done|]. split; [done|]. simpl.
    unfold balance_of. rewrite Ha. simpl.
    apply (check_balance_Returns user
             (mkAccount (password_hash account) (saldo account - a)%Qc)); [done|].
    rewrite accounts_transferred. rewrite accounts_map_saldo by done.
    by apply account_map_saldo.
  - eexists. rewrite history_of_accrued, decide_True by done.
    rewrite last_snoc. split; [done|]. split; [done|]. simpl.
    unfold balance_of. rewrite Ha. simpl.
    apply (check_balance_Returns user
             (mkAccount (password_hash account)
                (saldo account + saldo account * rate)%Qc)); [done|].
    rewrite accounts_accrued. unfold balance_of. rewrite Ha. simpl.
    by apply (account_map_saldo user
                (fun b => (b + saldo account * rate)%Qc)).
Qed.

Lemma X13_last_record_is_the_balance_witness :
  let c := Transfer "aisyah" (Dec (decimal.of_Z 50000)) in
  exists trans,
    list.last (history_of "ATA" (execute t0 c ata_session)) = Some trans /\
    timestamp trans = t0 /\
    check_balance (execute t0 c ata_session)
      = Returns (balance_after trans) (execute t0 c ata_session).
Proof.
  apply (X13_last_record_is_the_balance t0
           (Transfer "aisyah" (Dec (decimal.of_Z 50000))) ata_session "ATA"
           ata_session_well_formed ata_session_logged_in eq_refl).
  vm_compute. discriminate.
Defined.

(** ** Changing the PIN and changing it back *)

(** X14: with a session, changing the PIN and then changing it back, each
    time with the PIN in force as the old one, succeeds twice and restores
    the state exactly: [change_pin] leaves no trace but the stored hash. *)
Theorem X14_change_pin_round_trip
    (self : ATMSystem) (user : string) (account : Account)
    (old_pin new_pin : string) :
  logged_in_as user self ->
  accounts self !! user = Some account ->
  _hash_password old_pin = password_hash account ->
  exists changed,
    change_pin old_pin new_pin self = Returns (true, PIN_successfully_changed) changed /\
    change_pin new_pin old_pin changed = Returns (true, PIN_successfully_changed) self.
Proof.
  intros Hin Ha Hold. exists (pin_changed user new_pin self).
  rewrite (change_pin_spec _ _ _ _ _ Hin Ha). rewrite decide_True by done.
  split; [done|].
  assert (accounts (pin_changed user new_pin self) !! user =
          Some (mkAccount (_hash_password new_pin) (saldo account))) as Ha'.
  { unfold pin_changed, balance_of. simpl. rewrite lookup_insert_eq, Ha. done. }
  rewrite (change_pin_spec user _ new_pin old_pin (pin_changed user new_pin self)
             Hin Ha').
  rewrite decide_True by done. f_equal.
  unfold pin_changed at 1. unfold balance_of. rewrite Ha'. simpl.
  unfold pin_changed, set_accounts. simpl. rewrite insert_insert_eq.
  rewrite insert_id.
  - by destruct self.
  - rewrite Ha. f_equal. destruct account as [hash balance]. simpl in *. by rewrite Hold.
Qed.

Lemma X14_change_pin_round_trip_witness :
  exists changed,
    change_pin "8830" "4321" ata_session
      = Returns (true, PIN_successfully_changed) changed /\
    change_pin "4321" "8830" changed
      = Returns (true, PIN_successfully_changed) ata_session.
Proof.
  apply (X14_change_pin_round_trip ata_session "ATA" _ "8830" "4321"
           ata_session_logged_in ata_account).
  vm_compute. reflexivity.
Defined.

(** ** The histories account for the sum of the balances *)







(** ** The seed accounts *)

Lemma load_snoc self data entry :
  foldl load_entry self (data ++ [entry]) = load_entry (foldl load_entry self data) entry.
Proof. by rewrite foldl_app. Qed.

Lemma load_keeps self data :
  transaction_history (foldl load_entry self data) = transaction_history self /\
  failed_attempts (foldl load_entry self data) = failed_attempts self /\
  session_active (foldl load_entry self data) = session_active self /\
  current_user (foldl load_entry self data) = current_user self.
Proof.
  induction data as [|[[username pw_hash] b] data IH] using rev_ind; [done|].
  rewrite load_snoc. destruct IH as (H1 & H2 & H3 & H4).
  by rewrite <- H1, <- H2, <- H3, <- H4.
Qed.

Lemma load_accounts self data user :
  accounts (foldl load_entry self data) !! user =
    match list_find (fun entry : string * string * Decimal =>
                       str.upper (str.strip entry.1.1) = user) (reverse data) with
    | Some (_, (_, pw_hash, b)) => Some (mkAccount pw_hash b)
    | None => accounts self !! user
    end.
Proof.
  induction data as [|[[username pw_hash] b] data IH] using rev_ind; [done|].
  rewrite load_snoc, reverse_snoc. cbn [list_find fst snd].
  cbn [load_entry accounts set_daily_totals set_accounts].
  case_decide as Hkey.
  - rewrite Hkey. by rewrite lookup_insert_eq.
  - rewrite lookup_insert_ne by done. rewrite IH.
    by destruct (list_find _ (reverse data)) as [[? [[? ?] ?]]|].
Qed.

Lemma load_totals self data user :
  (forall user, is_Some (accounts self !! user) ->
                daily_totals self !! user = Some empty_totals) ->
  (forall user, accounts self !! user = None -> daily_totals self !! user = None) ->
  (is_Some (accounts (foldl load_entry self data) !! user) ->
   daily_totals (foldl load_entry self data) !! user = Some empty_totals) /\
  (accounts (foldl load_entry self data) !! user = None ->
   daily_totals (foldl load_entry self data) !! user = None).
Proof.
  intros Hsome Hnone. revert user.
  induction data as [|[[username pw_hash] b] data IH] using rev_ind; intros user.
  - split; [apply Hsome|apply Hnone].
  - rewrite load_snoc.
    cbn [load_entry accounts daily_totals set_daily_totals set_accounts].
    destruct (decide (str.upper (str.strip username) = user)) as [->|Hne].
    + rewrite !lookup_insert_eq. by split.
    + rewrite !lookup_insert_ne by done. apply IH.
Qed.

(** X16: what the constructor makes of a seed list.  An account exists
    under a name exactly when some entry of the list has that name once
    trimmed and put in upper case; its hash and balance are those of an
    entry with that name; it starts with the three empty daily totals,
    so with no usage on any date; names without an account have no
    totals either; and the instance starts with no history, no failure
    counter and no session. *)
Theorem X16_seed_accounts (initial_data : list (string * string * Decimal))
    (user : string) :
  let self := __init__ (Some initial_data) in
  (is_Some (accounts self !! user) <->
     exists entry, entry ∈ initial_data /\ str.upper (str.strip entry.1.1) = user) /\
  (forall account, accounts self !! user = Some account ->
     exists username,
       (username, password_hash account, saldo account) ∈ initial_data /\
       str.upper (str.strip username) = user) /\
  (is_Some (accounts self !! user) ->
     daily_totals self !! user = Some empty_totals /\
     forall trans_type day, usage_on user trans_type day self = 0%Qc) /\
  (accounts self !! user = None -> daily_totals self !! user = None) /\
  transaction_history self = ∅ /\
  failed_attempts self = ∅ /\
  session_active self = false /\
  current_user self = None.
Proof.
  cbn zeta. unfold __init__, _load_initial_data.
  change (default default_initial_data (Some initial_data)) with initial_data.
  set (empty := mkATMSystem ∅ ∅ ∅ ∅ false None).
  pose proof (load_accounts empty initial_data user) as Hacc.
  destruct (load_totals empty initial_data user) as [Hsome Hnone].
  { intros ? [? H]. done. }
  { done. }
  destruct (load_keeps empty initial_data) as (Hh & Hf & Hs & Hu).
  split_and!; try done.
  - rewrite Hacc. split.
    + destruct (list_find _ (reverse initial_data)) as [[i [[username pw_hash] b]]|] eqn:Hfind.
      * intros _. apply list_find_Some in Hfind as (Hi & Hkey & _).
        exists (username, pw_hash, b). split; [|done].
        apply elem_of_reverse. by eapply list_elem_of_lookup_2.
      * intros [? H]. done.
    + intros (entry & Hin & Hkey).
      destruct (list_find _ (reverse initial_data)) as [[i [[username pw_hash] b]]|] eqn:Hfind;
        [done|].
      apply list_find_None in Hfind. rewrite list.Forall_forall in Hfind.
      destruct (Hfind entry); [by apply elem_of_reverse|done].
  - intros account. rewrite Hacc.
    destruct (list_find _ (reverse initial_data)) as [[i [[username pw_hash] b]]|] eqn:Hfind;
      [|done].
    intros [= <-]. apply list_find_Some in Hfind as (Hi & Hkey & _).
    exists username. split; [|done].
    apply elem_of_reverse. by eapply list_elem_of_lookup_2.
  - intros Hin. split; [by apply Hsome|].
    intros trans_type day. unfold usage_on. rewrite (Hsome Hin). simpl.
    unfold empty_totals.
    destruct (decide (trans_type = "withdrawal"%string)) as [->|?];
      [by rewrite lookup_insert_eq|rewrite lookup_insert_ne by done].
    destruct (decide (trans_type = "deposit"%string)) as [->|?];
      [by rewrite lookup_insert_eq|rewrite lookup_insert_ne by done].
    destruct (decide (trans_type = "transfer"%string)) as [->|?];
      [by rewrite lookup_insert_eq|by rewrite lookup_insert_ne by done].
Qed.

Lemma load_last_wins self before username pw_hash b after :
  Forall (fun entry : string * string * Decimal =>
            str.upper (str.strip entry.1.1) <> str.upper (str.strip username)) after ->
  accounts (foldl load_entry self (before ++ (username, pw_hash, b) :: after))
    !! str.upper (str.strip username) = Some (mkAccount pw_hash b).
Proof.
  intros Hafter. rewrite foldl_app. cbn [foldl].
  set (s := load_entry _ _).
  assert (accounts s !! str.upper (str.strip username) = Some (mkAccount pw_hash b)) as Hs
    by (unfold s; cbn [load_entry accounts set_daily_totals set_accounts];
        by rewrite lookup_insert_eq).
  clearbody s. revert s Hs.
  induction after as [|[[username' pw_hash'] b'] after IH]; intros s Hs; [done|].
  apply Forall_cons_1 in Hafter as [Hne Hafter]. cbn [foldl]. apply IH; [done|].
  cbn [load_entry accounts set_daily_totals set_accounts].
  rewrite lookup_insert_ne; done.
Qed.

(** X17: a seeded account can be used.  When an entry of the seed list is
    the last one under its name, the account holds the hash and the
    balance of that entry; and when that hash is the hash of a PIN, a
    first login under any spelling of the name with that PIN succeeds,
    opens the session of that account, prints nothing, and
    [check_balance] then returns the seed balance. *)
Theorem X17_seeded_account_logs_in
    (before after : list (string * string * Decimal))
    (username pw_hash : string) (b : Decimal)
    (spelled pin : string) (now : datetime) :
  Forall (fun entry : string * string * Decimal =>
            str.upper (str.strip entry.1.1) <> str.upper (str.strip username)) after ->
  str.upper (str.strip spelled) = str.upper (str.strip username) ->
  pw_hash = _hash_password pin ->
  let self := __init__ (Some (before ++ (username, pw_hash, b) :: after)) in
  let user := str.upper (str.strip username) in
  accounts self !! user = Some (mkAccount pw_hash b) /\
  exists self',
    authenticate spelled pin now self = (true, [], self') /\
    logged_in_as user self' /\
    check_balance self' = Returns b self'.
Proof.
  intros Hafter Hspelled Hhash self user.
  assert (accounts self !! user = Some (mkAccount pw_hash b)) as Ha
    by (by apply load_last_wins).
  split; [done|].
  assert (failed_attempts self = ∅) as Hf.
  { unfold self, __init__, _load_initial_data.
    change (default default_initial_data (Some ?d)) with d.
    by destruct (load_keeps (mkATMSystem ∅ ∅ ∅ ∅ false None)
                   (before ++ (username, pw_hash, b) :: after)) as (_ & -> & _). }
  eexists. split_and!.
  - eapply authenticate_right.
    + rewrite Hspelled. exact Ha.
    + by rewrite Hhash.
    + unfold locked_out. by rewrite Hf, lookup_empty.
  - rewrite Hspelled. by split.
  - rewrite Hspelled. unfold check_balance, _assert_session, bind, get, getitem, ret.
    cbn [session_active current_user set_session accounts set_failed_attempts].
    fold user. by rewrite Ha.
Qed.


Lemma X17_seeded_account_logs_in_witness :
  let self := __init__ (Some ([("ata"%string, _hash_password "0000", decimal.of_Z 1)]
                ++ (" Ata "%string, _hash_password "8830", decimal.of_Z 7) :: [])) in
  let user := str.upper (str.strip " Ata ") in
  accounts self !! user
    = Some (mkAccount (_hash_password "8830") (decimal.of_Z 7)) /\
  exists self',
    authenticate "aTa" " 8830" t0 self = (true, [], self') /\
    logged_in_as user self' /\
    check_balance self' = Returns (decimal.of_Z 7) self'.
Proof.
  apply (X17_seeded_account_logs_in
           [("ata"%string, _hash_password "0000", decimal.of_Z 1)] []
           " Ata " (_hash_password "8830") (decimal.of_Z 7) "aTa" " 8830" t0).
  - constructor.
  - vm_compute. reflexivity.
  - vm_compute. reflexivity.
Defined.

(** ** The spelling of names and PINs *)



















(** ** The caps on the daily totals *)





(** ** The command loop *)

Lemma consistent_run script self :
  well_formed self -> consistent self -> consistent (run script self).
Proof.
  revert self. induction script as [|[now c] script IH]; intros self Hwf Hcons; [done|].
  simpl. apply IH; [by apply wf_execute | by apply consistent_execute].
Qed.

Lemma run_app before after self :
  run (before ++ after) self = run after (run before self).
Proof. unfold run. by rewrite foldl_app. Qed.

Lemma one_per_cent_app before after :
  one_per_cent before -> one_per_cent after -> one_per_cent (before ++ after).
Proof. apply Forall_app_2. Qed.

Lemma no_call self : exists script, self = run script self /\ one_per_cent script.
Proof. exists []. split; [done|constructor]. Qed.

Lemma one_per_cent_one now c :
  (forall interest_rate, c = SimulateInterest interest_rate ->
                         interest_rate = Q2Qc (1 # 100)) ->
  one_per_cent [(now, c)].
Proof. intros H. by apply Forall_singleton. Qed.

Lemma one_per_cent_rates script : one_per_cent script -> rates_from (- (1))%Qc script.
Proof.
  unfold one_per_cent, rates_from. apply Forall_impl. intros [now c] H.
  destruct c; try done. simpl in *. by rewrite (H _ eq_refl).
Qed.

Lemma consistent_session self :
  consistent self -> session_active self = true -> exists user, logged_in_as user self.
Proof.
  intros [Hs _] Ha. destruct (proj1 Hs Ha) as [user Hu]. by exists user.
Qed.

(** What a turn of the loop does to the machine, to the screen and to
    the input still to be read. *)
Lemma replied_turn o input now c (self : ATMSystem) :
  is_Some (returned o) -> state_after o = execute now c self ->
  let chosen := replied o input in
  Forall reports_no_exception (printed chosen) /\
  machine chosen = execute now c self /\
  pending chosen = input /\
  flow chosen = Running.
Proof.
  intros [r Hr] Hs. destruct o as [[success message] self'|e self']; [|done].
  by repeat split; [repeat constructor|].
Qed.

Lemma ask_amount_turn Decimal_of_str call input self user
    (c : Decimal -> command) :
  well_formed self -> logged_in_as user self ->
  (forall amount now, is_Some (returned (call amount now self)) /\
                      state_after (call amount now self) = execute now (c amount) self) ->
  (forall amount interest_rate, c amount <> SimulateInterest interest_rate) ->
  let chosen := ask_amount Decimal_of_str call input self in
  Forall reports_no_exception (printed chosen) /\
  (exists script, machine chosen = run script self /\ one_per_cent script) /\
  flow chosen = Running.
Proof.
  intros Hwf Hin Hcall Hc. unfold ask_amount.
  destruct input as [|[now amt_input] input].
  - split_and!; [by repeat constructor|apply no_call|done].
  - destruct (Decimal_of_str _) as [amount|].
    + destruct (Hcall amount now) as [Hret Hstate].
      destruct (replied_turn _ input now (c amount) self Hret Hstate) as (H1 & H2 & _ & H4).
      split_and!; [done| |done].
      exists [(now, c amount)]. split; [done|].
      apply one_per_cent_one. intros rate Hrate. by destruct (Hc amount rate).
    + split_and!; [by repeat constructor|apply no_call|done].
Qed.

Lemma option_chosen_turn Decimal_of_str input self user :
  well_formed self -> logged_in_as user self ->
  let chosen := option_chosen Decimal_of_str input self in
  Forall reports_no_exception (printed chosen) /\
  (exists script, machine chosen = run script self /\ one_per_cent script).
Proof.
  intros Hwf Hin.
  destruct (wf_lookups _ _ Hwf Hin) as (account & of_user & wd & dp & tr & Ha & _).
  pose proof (no_call self) as Hnone.
  unfold option_chosen. destruct input as [|[now choice] input].
  { split; [by repeat constructor|done]. }
  cbn zeta. repeat case_decide.
  - rewrite (check_balance_Returns _ _ _ Hin Ha). split; [by repeat constructor|done].
  - destruct (ask_amount_turn Decimal_of_str
                (fun amount now => withdraw (Dec amount) now) input self user
                (fun amount => Withdraw (Dec amount)) Hwf Hin) as (Hp & Hm & _);
      [|done|done].
    intros amount now'. split; [|done].
    destruct (withdraw_cases user (Dec amount) now' self Hwf Hin)
      as [[m ->]|(a & _ & _ & ->)]; by eexists.
  - destruct (ask_amount_turn Decimal_of_str
                (fun amount now => deposit (Dec amount) now) input self user
                (fun amount => Deposit (Dec amount)) Hwf Hin) as (Hp & Hm & _);
      [|done|done].
    intros amount now'. split; [|done].
    destruct (deposit_cases user (Dec amount) now' self Hwf Hin)
      as [[m ->]|(a & _ & _ & ->)]; by eexists.
  - destruct input as [|[now' recipient] input].
    { split; [by repeat constructor|done]. }
    destruct (ask_amount_turn Decimal_of_str
                (fun amount now => transfer (str.strip recipient) (Dec amount) now)
                input self user
                (fun amount => Transfer (str.strip recipient) (Dec amount)) Hwf Hin)
      as (Hp & Hm & _); [|done|done].
    intros amount now''. split; [|done].
    destruct (transfer_cases user (str.strip recipient) (Dec amount) now'' self Hwf Hin)
      as [[m ->]|(a & _ & _ & _ & _ & ->)]; by eexists.
  - rewrite (get_transaction_history_spec _ _ Hin).
    split; [|done]. destruct (history_of user self); by repeat constructor.
  - destruct input as [|[now1 old_pin] [|[now2 new_pin] input]];
      try (split; [by repeat constructor|done]).
    destruct (replied_turn (change_pin (str.strip old_pin) (str.strip new_pin) self)
                input now (ChangePin (str.strip old_pin) (str.strip new_pin)) self)
      as (Hp & Hm & _); [|done|].
    { rewrite (change_pin_spec _ _ _ _ _ Hin Ha). case_decide; by eexists. }
    split; [done|]. exists [(now, ChangePin (str.strip old_pin) (str.strip new_pin))].
    split; [done|]. by apply one_per_cent_one.
  - destruct (replied_turn (simulate_interest (Q2Qc (1 # 100)) now self)
                input now (SimulateInterest (Q2Qc (1 # 100))) self)
      as (Hp & Hm & _); [|done|].
    { rewrite (simulate_interest_spec _ _ _ _ _ Hin Ha). by eexists. }
    split; [done|]. exists [(now, SimulateInterest (Q2Qc (1 # 100)))].
    split; [done|]. apply one_per_cent_one. by intros ? [= <-].
  - split; [by repeat constructor|]. exists [(now, Logout)].
    split; [done|]. by apply one_per_cent_one.
  - split; [by repeat constructor|done].
  - split; [by repeat constructor|done].
Qed.

Lemma printed_lines_report_none (lines : list console_line) :
  Forall reports_no_exception (Printed <$> lines).
Proof. apply Forall_fmap. by apply Forall_true. Qed.

Lemma iteration_turn Decimal_of_str input self :
  well_formed self -> consistent self ->
  let first := iteration Decimal_of_str input self in
  Forall reports_no_exception (printed first) /\
  (exists script, machine first = run script self /\ one_per_cent script).
Proof.
  intros Hwf Hcons.
  pose proof (no_call self) as Hnone.
  unfold iteration. destruct (session_active self) eqn:Hactive; cbn [negb].
  - destruct (consistent_session _ Hcons Hactive) as [user Hin].
    destruct (option_chosen_turn Decimal_of_str input self user Hwf Hin) as [H1 H2].
    split; [|done]. by constructor.
  - destruct input as [|[now0 username] input]; [by split|].
    cbn zeta. case_decide; [split; [by repeat constructor|done]|].
    destruct input as [|[now password] input]; [by split|].
    pose proof (wf_authenticate (str.strip username) (str.strip password) now self Hwf)
      as Hwf'.
    pose proof (authenticate_success_inv (str.strip username) (str.strip password)
                  now self) as Hinv.
    assert (forall script',
              run script' (authenticate (str.strip username) (str.strip password) now self).2
              = run ((now, Authenticate (str.strip username) (str.strip password)) :: script')
                    self) as Hrun by done.
    destruct (authenticate (str.strip username) (str.strip password) now self)
      as [[ok lines] self'] eqn:Hauth.
    cbn [fst snd] in *. destruct ok; cbn [negb].
    + destruct (Hinv eq_refl) as (account & Ha & Hh & Hfree).
      rewrite (authenticate_right _ _ _ _ _ Ha Hh Hfree) in Hauth.
      assert (logged_in_as (str.upper (str.strip (str.strip username))) self') as Hin
        by (by injection Hauth as _ <-).
      destruct (option_chosen_turn Decimal_of_str input self' _ Hwf' Hin)
        as [H1 (script & H2 & H3)].
      cbn [printed machine]. split.
      * apply Forall_app_2; [apply printed_lines_report_none|]. by repeat constructor.
      * exists ((now, Authenticate (str.strip username) (str.strip password)) :: script).
        split; [by rewrite H2, Hrun|]. by constructor.
    + cbn [printed machine]. split; [apply printed_lines_report_none|].
      exists [(now, Authenticate (str.strip username) (str.strip password))].
      split; [by rewrite <- Hrun|]. by apply one_per_cent_one.
Qed.

Lemma main_loop_turn Decimal_of_str fuel input self :
  well_formed self -> consistent self ->
  let loop := main_loop Decimal_of_str fuel input self in
  Forall reports_no_exception (printed loop) /\
  (exists script, machine loop = run script self /\ one_per_cent script).
Proof.
  revert input self. induction fuel as [|fuel IH]; intros input self Hwf Hcons.
  { split; [constructor|apply no_call]. }
  cbn [main_loop]. cbn zeta.
  destruct (iteration_turn Decimal_of_str input self Hwf Hcons)
    as [H1 (script & H2 & H3)].
  destruct (flow (iteration Decimal_of_str input self)); [|by eauto..].
  destruct (IH (pending (iteration Decimal_of_str input self))
               (machine (iteration Decimal_of_str input self)))
    as [H4 (script' & H5 & H6)].
  { rewrite H2. by apply wf_run. }
  { rewrite H2. by apply consistent_run. }
  cbn [printed machine]. split; [by apply Forall_app_2|].
  exists (script ++ script'). split; [|by apply one_per_cent_app].
  by rewrite run_app, <- H2.
Qed.

Lemma dom_accounts_run script self :
  well_formed self -> dom (accounts (run script self)) = dom (accounts self).
Proof.
  revert self. induction script as [|[now c] script IH]; intros self Hwf; [done|].
  simpl. rewrite IH by (by apply wf_execute).
  destruct (engine_command c) eqn:Hc.
  - by destruct (engine_frame now c self Hwf Hc) as (_ & _ & _ & ->).
  - destruct c; try done; simpl.
    + by destruct (authenticate_frame username password now self) as (-> & _).
    + unfold logout. by destruct (session_active self).
Qed.


(** X21: what [main] can do to the machine.  Whatever is typed, the state
    of the machine is one that a sequence of calls reaches from the seed
    accounts, with one per cent as the only interest rate; so the
    accounts are always the three seed accounts and no balance is ever
    negative. *)
Theorem X21_main_keeps_the_accounts
    (Decimal_of_str : string -> option Decimal) (fuel : nat) (input : stdin) :
  let atm := machine (main Decimal_of_str fuel input) in
  (exists script, atm = run script (__init__ None) /\ one_per_cent script) /\
  (forall user, is_Some (accounts atm !! user) <->
     user = "ATA"%string \/ user = "AISYAH"%string \/ user = "EZRA DEBY"%string) /\
  balances_nonneg atm.
Proof.
  cbn zeta. unfold main. cbn [machine].
  destruct (main_loop_turn Decimal_of_str fuel input (__init__ None)
              (well_formed_init None) (consistent_init None))
    as [_ (script & Hrun & Hrates)].
  split; [by exists script|]. rewrite Hrun. split.
  - intros user. rewrite <- elem_of_dom.
    rewrite dom_accounts_run by apply well_formed_init.
    rewrite elem_of_dom.
    change (__init__ None) with
      (load_entry (load_entry (load_entry (mkATMSystem ∅ ∅ ∅ ∅ false None)
         ("ATA"%string, _hash_password "8830", decimal.of_Z 100000))
         ("AISYAH"%string, _hash_password "8790", decimal.of_Z 50000))
         ("EZRA DEBY"%string, _hash_password "9086", decimal.of_Z 200000)).
    cbn [load_entry accounts set_accounts set_daily_totals].
    change (str.upper (str.strip "ATA")) with "ATA"%string.
    change (str.upper (str.strip "AISYAH")) with "AISYAH"%string.
    change (str.upper (str.strip "EZRA DEBY")) with "EZRA DEBY"%string.
    rewrite !lookup_insert_is_Some, lookup_empty, is_Some_alt.
    split.
    + intros [H1|(_ & [H2|(_ & [H3|(_ & H4)])])]; auto; done.
    + intros [-> | [-> | ->]]; [right; split; [done|right; split; [done|by left]]
                           |right; split; [done|by left]|by left].
  - apply nonneg_run; [apply well_formed_init| |by apply one_per_cent_rates].
    apply (nonneg_init default_initial_data). by repeat constructor.
Qed.

(** ** How the loop ends *)

Lemma replied_pending o input :
  pending (replied o input) = input /\ flow (replied o input) = Running /\
  machine (replied o input) = state_after o.
Proof. by destruct o as [[? ?] ?|? ?]. Qed.

Lemma ask_amount_pending Decimal_of_str call input self :
  let chosen := ask_amount Decimal_of_str call input self in
  flow chosen = Running /\
  (List.length (pending chosen) <= List.length input)%nat.
Proof.
  unfold ask_amount. destruct input as [|[now amt_input] input]; [done|].
  destruct (Decimal_of_str _) as [amount|]; simpl.
  - destruct (replied_pending (call amount now self) input) as (-> & -> & _).
    split; [done|lia].
  - split; [done|lia].
Qed.

Lemma option_chosen_pending Decimal_of_str input self :
  let chosen := option_chosen Decimal_of_str input self in
  (flow chosen = Running \/ flow chosen = Exited) /\
  match input with
  | [] => chosen = mkTurn Running [Unexpected_error None] [] self
  | _ => (List.length (pending chosen) < List.length input)%nat
  end.
Proof.
  unfold option_chosen. destruct input as [|[now choice] input]; [by split; [left|]|].
  cbn zeta. repeat case_decide.
  - by destruct (check_balance self); split; [left| |left|]; simpl; lia || done.
  - destruct (ask_amount_pending Decimal_of_str
                (fun amount now => withdraw (Dec amount) now) input self) as [-> Hle].
    split; [by left|]. simpl. lia.
  - destruct (ask_amount_pending Decimal_of_str
                (fun amount now => deposit (Dec amount) now) input self) as [-> Hle].
    split; [by left|]. simpl. lia.
  - destruct input as [|[now' recipient] input]; [split; [by left|simpl; lia]|].
    destruct (ask_amount_pending Decimal_of_str
                (fun amount now => transfer (str.strip recipient) (Dec amount) now)
                input self) as [-> Hle].
    split; [by left|]. simpl. lia.
  - by destruct (get_transaction_history self); split; [left| |left|]; simpl; lia || done.
  - destruct input as [|[now1 old_pin] [|[now2 new_pin] input]];
      try (split; [by left|simpl; lia]).
    destruct (replied_pending
                (change_pin (str.strip old_pin) (str.strip new_pin) self) input)
      as (-> & -> & _).
    split; [by left|]. simpl. lia.
  - destruct (replied_pending (simulate_interest (Q2Qc (1 # 100)) now self) input)
      as (-> & -> & _).
    split; [by left|]. simpl. lia.
  - split; [by left|]. simpl. lia.
  - split; [by right|]. simpl. lia.
  - split; [by left|]. simpl. lia.
Qed.

Lemma iteration_pending Decimal_of_str input self :
  let first := iteration Decimal_of_str input self in
  match flow first with
  | Crashed => pending first = [] /\ machine first = self /\ session_active self = false
  | Exited => True
  | Running =>
      match input with
      | [] => pending first = [] /\ machine first = self /\ session_active self = true
      | _ => (List.length (pending first) < List.length input)%nat
      end
  end.
Proof.
  unfold iteration. destruct (session_active self) eqn:Hactive; cbn [negb].
  - destruct (option_chosen_pending Decimal_of_str input self) as [Hflow Hlen].
    cbn zeta. cbn [flow pending machine].
    destruct Hflow as [-> | ->]; [|done].
    destruct input; [by rewrite Hlen|done].
  - destruct input as [|[now0 username] input]; [done|].
    cbn zeta. case_decide; [done|].
    destruct input as [|[now password] input]; [done|].
    destruct (authenticate _ _ _ _) as [[ok lines] self'].
    destruct ok; cbn [negb flow pending machine]; [|simpl; lia].
    destruct (option_chosen_pending Decimal_of_str input self') as [Hflow Hlen].
    destruct Hflow as [-> | ->]; [|done].
    destruct input; [rewrite Hlen|]; simpl in *; lia.
Qed.

Lemma main_loop_eof Decimal_of_str fuel self :
  session_active self = true ->
  let loop := main_loop Decimal_of_str fuel [] self in
  flow loop = Running /\ pending loop = [] /\ machine loop = self.
Proof.
  intros Hactive. induction fuel as [|fuel IH]; [done|].
  cbn [main_loop]. unfold iteration. rewrite Hactive. cbn [negb option_chosen].
  cbn zeta. cbn [flow pending machine]. apply IH.
Qed.

Lemma main_loop_ends Decimal_of_str fuel input self :
  (List.length input < fuel)%nat ->
  let loop := main_loop Decimal_of_str fuel input self in
  flow loop = Exited \/
  (flow loop = Crashed /\ pending loop = [] /\ session_active (machine loop) = false) \/
  (flow loop = Running /\ pending loop = [] /\ session_active (machine loop) = true).
Proof.
  revert input self. induction fuel as [|fuel IH]; intros input self Hfuel; [lia|].
  cbn [main_loop]. cbn zeta.
  pose proof (iteration_pending Decimal_of_str input self) as Hfirst. cbn zeta in Hfirst.
  destruct (flow (iteration Decimal_of_str input self)) eqn:Hflow.
  - cbn [flow pending machine]. destruct input as [|line input].
    + destruct Hfirst as (-> & -> & Hactive).
      destruct (main_loop_eof Decimal_of_str fuel self Hactive) as (-> & -> & ->).
      by right; right.
    + apply IH. simpl in *. lia.
  - left. exact Hflow.
  - right; left. destruct Hfirst as (-> & -> & ->). by rewrite Hflow.
Qed.

Lemma option_chosen_goodbye Decimal_of_str input self :
  let chosen := option_chosen Decimal_of_str input self in
  flow chosen = Exited -> printed chosen = [Goodbye].
Proof.
  unfold option_chosen. destruct input as [|[now choice] input]; [done|].
  cbn zeta. repeat case_decide; try done.
  - by destruct (check_balance self).
  - by destruct (ask_amount_pending Decimal_of_str
                   (fun amount now => withdraw (Dec amount) now) input self) as [-> _].
  - by destruct (ask_amount_pending Decimal_of_str
                   (fun amount now => deposit (Dec amount) now) input self) as [-> _].
  - destruct input as [|[now' recipient] input]; [done|].
    by destruct (ask_amount_pending Decimal_of_str
                   (fun amount now => transfer (str.strip recipient) (Dec amount) now)
                   input self) as [-> _].
  - by destruct (get_transaction_history self).
  - destruct input as [|[now1 old_pin] [|[now2 new_pin] input]]; try done.
    by destruct (replied_pending
                   (change_pin (str.strip old_pin) (str.strip new_pin) self) input)
      as (_ & -> & _).
  - by destruct (replied_pending (simulate_interest (Q2Qc (1 # 100)) now self) input)
      as (_ & -> & _).
Qed.

Lemma iteration_goodbye Decimal_of_str input self :
  let first := iteration Decimal_of_str input self in
  flow first = Exited -> list.last (printed first) = Some Goodbye.
Proof.
  unfold iteration. destruct (session_active self); cbn [negb].
  - cbn zeta. cbn [flow printed]. intros Hflow.
    by rewrite (option_chosen_goodbye _ _ _ Hflow).
  - destruct input as [|[now0 username] input]; [done|].
    cbn zeta. case_decide; [done|].
    destruct input as [|[now password] input]; [done|].
    destruct (authenticate _ _ _ _) as [[ok lines] self'].
    destruct ok; cbn [negb flow printed]; [|done].
    intros Hflow. rewrite (option_chosen_goodbye _ _ _ Hflow).
    by rewrite last_app.
Qed.

Lemma main_loop_goodbye Decimal_of_str fuel input self :
  let loop := main_loop Decimal_of_str fuel input self in
  flow loop = Exited -> list.last (printed loop) = Some Goodbye.
Proof.
  revert input self. induction fuel as [|fuel IH]; intros input self; [done|].
  cbn [main_loop]. cbn zeta.
  pose proof (iteration_goodbye Decimal_of_str input self) as Hfirst. cbn zeta in Hfirst.
  destruct (flow (iteration Decimal_of_str input self)) eqn:Hflow.
  - cbn [flow printed]. intros Hrest. specialize (IH _ _ Hrest).
    destruct (printed (main_loop Decimal_of_str fuel _ _)) as [|line rest] using rev_ind;
      [done|].
    rewrite last_snoc in IH. by rewrite app_assoc, last_snoc.
  - intros _. by apply Hfirst.
  - by rewrite Hflow.
Qed.

Lemma main_loop_more Decimal_of_str fuel more input self :
  let loop := main_loop Decimal_of_str fuel input self in
  flow loop = Running ->
  let rest := main_loop Decimal_of_str more (pending loop) (machine loop) in
  main_loop Decimal_of_str (fuel + more) input self =
    mkTurn (flow rest) (printed loop ++ printed rest) (pending rest) (machine rest).
Proof.
  cbn zeta. revert input self. induction fuel as [|fuel IH]; intros input self.
  { intros _. simpl. by destruct (main_loop Decimal_of_str more input self). }
  cbn [main_loop Nat.add]. cbn zeta.
  destruct (flow (iteration Decimal_of_str input self)) eqn:Hflow.
  - cbn [flow pending machine printed]. intros Hrest.
    rewrite (IH _ _ Hrest). cbn [flow pending machine printed].
    by rewrite app_assoc.
  - by rewrite Hflow.
  - by rewrite Hflow.
Qed.

(** X22: how [main] ends.  Every turn of the loop reads at least one line
    while there is one, so once the loop has run for more turns than
    there are lines it has either left by a [break] (the word exit at the
    prompt for the user name, in any letter case, or option 9), or it has
    read all its input: then, without a session, the [EOFError] of the
    login prompt ends [main], and with a session the [try] swallows it and
    the loop goes round for ever, the machine unchanged. *)
Theorem X22_main_ends
    (Decimal_of_str : string -> option Decimal) (fuel : nat) (input : stdin) :
  (List.length input < fuel)%nat ->
  let final := main Decimal_of_str fuel input in
  (flow final = Exited /\ list.last (printed final) = Some Goodbye) \/
  (flow final = Crashed /\ pending final = [] /\
   session_active (machine final) = false) \/
  (flow final = Running /\ pending final = [] /\
   session_active (machine final) = true /\
   forall more,
     machine (main Decimal_of_str (fuel + more) input) = machine final /\
     flow (main Decimal_of_str (fuel + more) input) = Running).
Proof.
  intros Hfuel. cbn zeta. unfold main. cbn [flow pending machine printed].
  destruct (main_loop_ends Decimal_of_str fuel input (__init__ None) Hfuel)
    as [Hexit|[Hcrash|(Hrun & Hpending & Hactive)]].
  - left. split; [done|].
    pose proof (main_loop_goodbye Decimal_of_str fuel input (__init__ None) Hexit) as Hlast.
    destruct (printed (main_loop Decimal_of_str fuel input (__init__ None)));
      [done|by rewrite last_cons, Hlast].
  - by right; left.
  - right; right. split_and!; try done. intros more.
    rewrite (main_loop_more Decimal_of_str fuel more input (__init__ None) Hrun).
    cbn [flow machine]. rewrite Hpending.
    by destruct (main_loop_eof Decimal_of_str more _ Hactive) as (-> & _ & ->).
Qed.

Lemma X22_main_ends_witness :
  let final := main plain_numeral 7 sample_input in
  (flow final = Exited /\ list.last (printed final) = Some Goodbye) \/
  (flow final = Crashed /\ pending final = [] /\
   session_active (machine final) = false) \/
  (flow final = Running /\ pending final = [] /\
   session_active (machine final) = true /\
   forall more,
     machine (main plain_numeral (7 + more) sample_input) = machine final /\
     flow (main plain_numeral (7 + more) sample_input) = Running).
Proof.
  apply (X22_main_ends plain_numeral 7 sample_input). simpl. lia.
Defined.

Example main_on_sample_input :
  let final := main plain_numeral 7 sample_input in
  flow final = Exited /\
  printed final =
    [ Welcome; Login_successful; Menu;
      Reply (Successfully_withdrawn (decimal.of_Z 50000)); Menu;
      Current_balance (decimal.of_Z 50000); Menu; Goodbye ] /\
  pending final = [] /\
  session_active (machine final) = true /\
  balance_of "ATA" (machine final) = Some (decimal.of_Z 50000).
Proof. vm_compute. repeat split; reflexivity. Qed.

(** ** When a withdrawal or a transfer goes through *)



